(** * blob_storage.py: a shallow embedding of [BlobStorageHandler]

    The handler of [src/blob_storage.py] is a thin wrapper over two
    collaborators: the Azure blob client and the local filesystem.  Its own
    logic is the sequencing of the calls, the guards placed before them and
    the exceptions it raises.  The development keeps that split visible:

    - the data of the source ([ClientParamsInput], [BlobStorageHandler]) and
      the client handles it derives are records;
    - Python exceptions are an inductive type and a call either returns or
      raises ([result]);
    - every method is a computation in a state-and-exception monad over the
      interpreter state: the handler object, the remote store, the local
      filesystem and the list of collaborator calls issued so far;
    - the blob client is an interface ([BlobSDK]); [azure_sdk] is its
      reference instance, a finite map from blob keys to blobs with
      snapshots. *)

From Stdlib Require Import Strings.Byte.
From stdpp Require Import base strings gmap list.

Set Default Proof Using "Type".

(** ** Values *)

Definition bytes := list byte.

(** ** Exceptions

    The classes the handler itself raises ([ResourceExistsError],
    [ValueError]) and the ones that reach the caller from the collaborators:
    [ResourceNotFoundError] from the blob client, [FileNotFoundError],
    [IsADirectoryError], [NotADirectoryError] and [PermissionError] from
    [open], [FrozenInstanceError] from a frozen dataclass. The argument is
    the message. *)

Inductive exn :=
| ResourceExistsError (msg : string)
| ResourceNotFoundError (msg : string)
| ValueError (msg : string)
| FileNotFoundError (msg : string)
| IsADirectoryError (msg : string)
| NotADirectoryError (msg : string)
| PermissionError (msg : string)
| FrozenInstanceError (msg : string).

Inductive result (A : Type) :=
| Ok (a : A)
| Raise (e : exn).
Arguments Ok {A} a.
Arguments Raise {A} e.

(** ** Configuration and handles *)

(** [@dataclass(frozen=True, eq=True) class ClientParamsInput] *)
Record ClientParamsInput := {
  conn_str : string;
  container_name : string
}.

#[global] Instance ClientParamsInput_eq_dec : EqDecision ClientParamsInput.
Proof. solve_decision. Defined.

(** [frozen=True]: assigning to a field of an instance raises and leaves the
    instance as it is. *)
Definition ClientParamsInput_setattr
    (p : ClientParamsInput) (field value : string)
  : result unit * ClientParamsInput :=
  (Raise (FrozenInstanceError ("cannot assign to field '" ++ field ++ "'")), p).

(** The handler object: [client_params] is its only attribute. *)
Record BlobStorageHandler := {
  client_params : ClientParamsInput
}.

(** [BlobStorageHandler.__init__] *)
Definition __init__ (container_name conn_str : string) : BlobStorageHandler :=
  {| client_params := {| conn_str := conn_str; container_name := container_name |} |}.

(** The three nested client objects of the SDK: each is a plain reference
    (service, then container, then blob name). *)
Record BlobServiceClient := { service_conn_str : string }.
Record ContainerClient := {
  container_service : BlobServiceClient;
  container : string
}.
Record BlobClient := {
  blob_container : ContainerClient;
  blob_name : string
}.

#[global] Instance BlobServiceClient_eq_dec : EqDecision BlobServiceClient.
Proof. solve_decision. Defined.
#[global] Instance ContainerClient_eq_dec : EqDecision ContainerClient.
Proof. solve_decision. Defined.
#[global] Instance BlobClient_eq_dec : EqDecision BlobClient.
Proof. solve_decision. Defined.

(** [BlobServiceClient.from_connection_string], [get_container_client] and
    [get_blob_client] of the SDK only build the reference; no request is
    sent. The connection string is taken to be well formed and the names
    non-empty: the SDK refuses the others with [ValueError], which is
    outside the model. *)
Definition from_connection_string (cs : string) : BlobServiceClient :=
  {| service_conn_str := cs |}.
Definition sdk_get_container_client (svc : BlobServiceClient) (name : string)
  : ContainerClient :=
  {| container_service := svc; container := name |}.
Definition sdk_get_blob_client (c : ContainerClient) (path : string) : BlobClient :=
  {| blob_container := c; blob_name := path |}.

(** The [delete_snapshots] argument of [delete_blob]. *)
Inductive delete_snapshots := include | only.

(** ** The blob client as an interface

    What the handler needs from the storage layer, over an abstract remote
    state. [exists_] is [BlobClient.exists()], [download_blob_readall] is
    [BlobClient.download_blob().readall()], [upload_blob] is
    [ContainerClient.upload_blob(name, data, overwrite)] and [delete_blob]
    is [BlobClient.delete_blob(delete_snapshots)]. *)
Class BlobSDK (store : Type) := {
  exists_ : BlobClient -> store -> bool;
  download_blob_readall : BlobClient -> store -> result bytes;
  upload_blob : ContainerClient -> string -> bytes -> bool -> store
                -> result BlobClient * store;
  delete_blob : BlobClient -> option delete_snapshots -> store
                -> result unit * store
}.

(** ** The local filesystem *)

(** Why no file can be created at a path at which nothing exists: the
    directory that should hold it is missing, a component of the path is a
    regular file, or the directory does not allow writing. *)
Inductive obstacle :=
| MissingDirectory
| NotADirectory
| ReadOnlyDirectory.

(** What the local filesystem has at a path. [NullDevice] stands for the
    entries that are neither regular files nor directories: it can be
    opened, reads give nothing and writes are discarded. [Obstructed] records
    a path at which nothing exists and nothing can be created. A path with
    no record at all is free: nothing exists there, and the directory that
    is to hold a new file exists and is writable. Paths hold no NUL byte. *)
Inductive entry :=
| RegularFile (content : bytes)
| Directory
| NullDevice
| Obstructed (why : obstacle).

Inductive open_mode := rb | wb.

(** A file object returned by [open]: the path it was opened at. *)
Record file := { file_name : string; file_mode : open_mode }.

(** What [save_obj] receives as [file_obj]: bytes, or an open file object
    whose content the storage layer reads when it uploads. *)
Inductive upload_data :=
| Bytes (data : bytes)
| FileObject (f : file).

(** ** Interpreter state *)

(** The collaborator calls, in the order the handler issues them. *)
Inductive call :=
| CallExists (b : BlobClient)
| CallDownloadBlob (b : BlobClient)
| CallUploadBlob (c : ContainerClient) (name : string) (data : bytes) (overwrite : bool)
| CallDeleteBlob (b : BlobClient) (ds : option delete_snapshots)
| CallIsFile (path : string)
| CallOpen (path : string) (mode : open_mode)
| CallWrite (path : string) (data : bytes)
| CallClose (path : string).

Record state (store : Type) := {
  self : BlobStorageHandler;
  remote : store;
  fs : gmap string entry;
  trace : list call
}.
Arguments self {store} s.
Arguments remote {store} s.
Arguments fs {store} s.
Arguments trace {store} s.

Definition set_remote {store} (r : store) (s : state store) : state store :=
  {| self := self s; remote := r; fs := fs s; trace := trace s |}.
Definition set_fs {store} (f : gmap string entry) (s : state store) : state store :=
  {| self := self s; remote := remote s; fs := f; trace := trace s |}.
Definition log {store} (c : call) (s : state store) : state store :=
  {| self := self s; remote := remote s; fs := fs s; trace := trace s ++ [c] |}.

(** ** The monad of methods *)

Definition M (store A : Type) := state store -> result A * state store.

Definition ret {store A} (a : A) : M store A := fun s => (Ok a, s).
Definition raise {store A} (e : exn) : M store A := fun s => (Raise e, s).
Definition bind {store A B} (m : M store A) (k : A -> M store B) : M store B :=
  fun s => match m s with
           | (Ok a, s') => k a s'
           | (Raise e, s') => (Raise e, s')
           end.
(** [try: body finally: cleanup], as the [with] statement uses it. *)
Definition finally {store A} (body : M store A) (cleanup : M store unit) : M store A :=
  fun s => match body s with
           | (r, s') => match cleanup s' with
                        | (Ok _, s'') => (r, s'')
                        | (Raise e, s'') => (Raise e, s'')
                        end
           end.

Notation "'let*' x ':=' m 'in' k" := (bind m (fun x => k))
  (at level 10, x name, m at level 100, k at level 200).

Definition get_self {store} : M store BlobStorageHandler := fun s => (Ok (self s), s).

(** ** Collaborator calls

    Each call appends itself to the trace and then acts on the part of the
    state it owns: the blob client on [remote], the filesystem calls on
    [fs]. *)

Section Handler.
Context {store : Type} `{!BlobSDK store}.

(** [BlobClient.exists()] *)
Definition call_exists (b : BlobClient) : M store bool :=
  fun s => (Ok (exists_ b (remote s)), log (CallExists b) s).

(** [BlobClient.download_blob().readall()] *)
Definition call_download_blob_readall (b : BlobClient) : M store bytes :=
  fun s => (download_blob_readall b (remote s), log (CallDownloadBlob b) s).

(** The bytes the storage layer reads out of [data]. *)
Definition read_upload_data (data : upload_data) (files : gmap string entry) : bytes :=
  match data with
  | Bytes d => d
  | FileObject f =>
      match files !! file_name f with
      | Some (RegularFile d) => d
      | _ => []
      end
  end.

(** [ContainerClient.upload_blob(name=, data=, overwrite=)] *)
Definition call_upload_blob (c : ContainerClient) (name : string)
    (data : upload_data) (overwrite : bool) : M store BlobClient :=
  fun s =>
    let payload := read_upload_data data (fs s) in
    let s1 := log (CallUploadBlob c name payload overwrite) s in
    match upload_blob c name payload overwrite (remote s) with
    | (r, st) => (r, set_remote st s1)
    end.

(** [BlobClient.delete_blob(delete_snapshots=)] *)
Definition call_delete_blob (b : BlobClient) (ds : option delete_snapshots)
  : M store unit :=
  fun s =>
    let s1 := log (CallDeleteBlob b ds) s in
    match delete_blob b ds (remote s) with
    | (r, st) => (r, set_remote st s1)
    end.

(** [os.path.isfile(path)]: true for a regular file only. *)
Definition isfile (files : gmap string entry) (path : string) : bool :=
  match files !! path with
  | Some (RegularFile _) => true
  | _ => false
  end.

Definition os_path_isfile (path : string) : M store bool :=
  fun s => (Ok (isfile (fs s) path), log (CallIsFile path) s).

(** The exception of [open] at an obstructed path. The message shows the
    path between single quotes, as Python prints a path that holds no
    quote, backslash or control character. *)
Definition open_error (mode : open_mode) (why : obstacle) (path : string) : exn :=
  match why, mode with
  | NotADirectory, _ =>
      NotADirectoryError ("[Errno 20] Not a directory: '" ++ path ++ "'")
  | ReadOnlyDirectory, wb =>
      PermissionError ("[Errno 13] Permission denied: '" ++ path ++ "'")
  | _, _ =>
      FileNotFoundError ("[Errno 2] No such file or directory: '" ++ path ++ "'")
  end.

(** [open(path, mode)]. A directory cannot be opened in either mode;
    ["rb"] needs an entry; ["wb"] truncates a regular file and creates one
    at a free path. At an obstructed path nothing is created and the error
    of the operating system is raised: [FileNotFoundError] under a missing
    directory, [NotADirectoryError] below a regular file, [PermissionError]
    when writing into a read-only directory. *)
Definition open (path : string) (mode : open_mode) : M store file :=
  fun s =>
    let s1 := log (CallOpen path mode) s in
    let f := {| file_name := path; file_mode := mode |} in
    match fs s !! path, mode with
    | Some Directory, _ =>
        (Raise (IsADirectoryError ("[Errno 21] Is a directory: '" ++ path ++ "'")), s1)
    | None, rb =>
        (Raise (FileNotFoundError
                  ("[Errno 2] No such file or directory: '" ++ path ++ "'")), s1)
    | None, wb => (Ok f, set_fs (<[path := RegularFile []]> (fs s)) s1)
    | Some (RegularFile _), wb => (Ok f, set_fs (<[path := RegularFile []]> (fs s)) s1)
    | Some (RegularFile _), rb => (Ok f, s1)
    | Some NullDevice, _ => (Ok f, s1)
    | Some (Obstructed why), _ => (Raise (open_error mode why path), s1)
    end.

(** [f.write(data)]: appends to the regular file behind [f] and returns
    the number of bytes written. *)
Definition file_write (f : file) (data : bytes) : M store nat :=
  fun s =>
    let s1 := log (CallWrite (file_name f) data) s in
    match fs s !! file_name f with
    | Some (RegularFile d) =>
        (Ok (length data), set_fs (<[file_name f := RegularFile (d ++ data)]> (fs s)) s1)
    | _ => (Ok (length data), s1)
    end.

Definition file_close (f : file) : M store unit :=
  fun s => (Ok tt, log (CallClose (file_name f)) s).

(** [with open(path, mode) as f: body] *)
Definition with_open {A} (path : string) (mode : open_mode)
    (body : file -> M store A) : M store A :=
  let* f := open path mode in
  finally (body f) (file_close f).

(** ** The methods of [BlobStorageHandler] *)

Definition create_client : M store BlobServiceClient :=
  let* this := get_self in
  ret (from_connection_string (conn_str (client_params this))).

Definition get_container_client : M store ContainerClient :=
  let* svc := create_client in
  let* this := get_self in
  ret (sdk_get_container_client svc (container_name (client_params this))).

Definition get_blob_client (file_path : string) : M store BlobClient :=
  let* c := get_container_client in
  ret (sdk_get_blob_client c file_path).

Definition blob_exists (file_path : string) : M store bool :=
  let* b := get_blob_client file_path in
  call_exists b.

Definition read_obj (file_path : string) : M store bytes :=
  let* b := get_blob_client file_path in
  call_download_blob_readall b.

Definition download_file (from_file_path to_file_path : string) : M store bool :=
  let* found := blob_exists from_file_path in
  if negb found then
    raise (ResourceExistsError
             ("The specified blob `" ++ to_file_path ++ "` does not exists."))
  else
    let* present := os_path_isfile to_file_path in
    if present then
      raise (ValueError
               ("The specified file `" ++ to_file_path ++ "` already exists."))
    else
      let* _ := with_open to_file_path wb (fun f =>
             let* b := get_blob_client from_file_path in
             let* data := call_download_blob_readall b in
             file_write f data) in
      ret true.

Definition save_obj (file_obj : upload_data) (file_path : string)
    (overwrite : bool) : M store BlobClient :=
  (* [not overwrite and self.blob_exists(file_path)] *)
  let* refuse := (if negb overwrite then blob_exists file_path else ret false) in
  if refuse then
    raise (ResourceExistsError
             ("The specified blob `" ++ file_path ++ "` already exists"))
  else
    let* c := get_container_client in
    call_upload_blob c file_path file_obj true.

Definition upload_file (from_file_path to_file_path : string)
    (overwrite : bool) : M store BlobClient :=
  with_open from_file_path rb (fun file_obj =>
    save_obj (FileObject file_obj) to_file_path overwrite).

Definition delete_obj (file_path : string) : M store bool :=
  let* b := get_blob_client file_path in
  let* _ := call_delete_blob b (Some include) in
  let* still := blob_exists file_path in
  if still then ret false else ret true.

(** ** Delegation, as the specification words it

    [uploadFile] read as: open the local file for reading, take its
    contents, and call [save_obj] on those bytes. To be compared with
    [upload_file], which hands the open file object itself to [save_obj]. *)

(** [f.read()] *)
Definition file_readall (f : file) : M store bytes :=
  fun s => (Ok (read_upload_data (FileObject f) (fs s)), s).

Definition upload_file_spec (from_file_path to_file_path : string)
    (overwrite : bool) : M store BlobClient :=
  with_open from_file_path rb (fun f =>
    let* data := file_readall f in
    save_obj (Bytes data) to_file_path overwrite).

(** ** The public operations as one type

    A call of any public method, with its arguments, and what it leaves
    behind; the results are put into one sum. *)
Inductive operation :=
| OpExists (path : string)
| OpReadAll (path : string)
| OpDownloadToFile (remote_path local_path : string)
| OpUploadFile (local_path remote_path : string) (overwrite : bool)
| OpSaveObject (data : upload_data) (remote_path : string) (overwrite : bool)
| OpDeleteObject (path : string).

Inductive value :=
| VBool (b : bool)
| VBytes (d : bytes)
| VHandle (h : BlobClient).

Definition fmap_result {A B} (f : A -> B) (r : result A * state store)
  : result B * state store :=
  match r with
  | (Ok a, s) => (Ok (f a), s)
  | (Raise e, s) => (Raise e, s)
  end.

Definition run_op (op : operation) : M store value :=
  fun s =>
    match op with
    | OpExists p => fmap_result VBool (blob_exists p s)
    | OpReadAll p => fmap_result VBytes (read_obj p s)
    | OpDownloadToFile r l => fmap_result VBool (download_file r l s)
    | OpUploadFile l r o => fmap_result VHandle (upload_file l r o s)
    | OpSaveObject d r o => fmap_result VHandle (save_obj d r o s)
    | OpDeleteObject p => fmap_result VBool (delete_obj p s)
    end.

End Handler.

(** The handles a handler derives from its configuration: what
    [get_container_client] and [get_blob_client] evaluate to. *)
Definition container_of (h : BlobStorageHandler) : ContainerClient :=
  sdk_get_container_client
    (from_connection_string (conn_str (client_params h)))
    (container_name (client_params h)).
Definition blob_of (h : BlobStorageHandler) (path : string) : BlobClient :=
  sdk_get_blob_client (container_of h) path.

(** ** Error kinds of the specification

    The specification names kinds of failure, not exception classes. The
    handler raises [ResourceExistsError] both when a download finds no
    remote blob and when a save finds one, so the kind of an exception
    depends on the operation that raised it. *)
Inductive error_kind :=
| RemoteNotFound
| LocalAlreadyExists
| AlreadyExists
| BackendError.

Definition download_error_kind (e : exn) : error_kind :=
  match e with
  | ResourceExistsError _ => RemoteNotFound
  | ValueError _ => LocalAlreadyExists
  | _ => BackendError
  end.

Definition save_error_kind (e : exn) : error_kind :=
  match e with
  | ResourceExistsError _ => AlreadyExists
  | _ => BackendError
  end.

Definition fails_with {A} (kind_of : exn -> error_kind) (r : result A)
    (k : error_kind) : Prop :=
  match r with
  | Raise e => kind_of e = k
  | Ok _ => False
  end.

(** ** The reference storage layer

    The remote state of the Azure client: blobs addressed by connection
    string, container and name, each with the snapshots taken of it. The
    connection string is taken to be valid and the container to exist;
    transport and authentication failures are outside the model. *)

Record blob := {
  content : bytes;
  snapshots : list bytes
}.

(** The key of a blob in the store: the three strings as the client holds
    them. Names are taken as the service stores them; a name the client
    would rewrite before sending it (one with dot segments, such as
    ["./a.txt"]) is outside the model, and nothing below rests on two
    different strings naming two different blobs. *)
Definition blob_key (b : BlobClient) : string * string * string :=
  (service_conn_str (container_service (blob_container b)),
   container (blob_container b),
   blob_name b).

Abbreviation azure_store := (gmap (string * string * string) blob).

(** [exists()] answers from the store and never raises for a missing blob. *)
Definition azure_exists (b : BlobClient) (st : azure_store) : bool :=
  match st !! blob_key b with
  | Some _ => true
  | None => false
  end.

(** [download_blob().readall()]: the whole content, or the 404 of the
    service as [ResourceNotFoundError]. *)
Definition azure_download_blob_readall (b : BlobClient) (st : azure_store)
  : result bytes :=
  match st !! blob_key b with
  | Some bl => Ok (content bl)
  | None => Raise (ResourceNotFoundError "The specified blob does not exist.")
  end.

(** [upload_blob]: creates the blob; replaces the content of an existing one
    (its snapshots stay) when [overwrite] is set and answers 409,
    [ResourceExistsError], when it is not. Returns the client of the blob. *)
Definition azure_upload_blob (c : ContainerClient) (name : string) (data : bytes)
    (overwrite : bool) (st : azure_store) : result BlobClient * azure_store :=
  let b := sdk_get_blob_client c name in
  match st !! blob_key b with
  | None => (Ok b, <[blob_key b := {| content := data; snapshots := [] |}]> st)
  | Some old =>
      if overwrite then
        (Ok b, <[blob_key b := {| content := data; snapshots := snapshots old |}]> st)
      else (Raise (ResourceExistsError "The specified blob already exists."), st)
  end.

(** [delete_blob]: 404, [ResourceNotFoundError], for a missing blob (of the
    message of the service only the first line is kept). With
    ["include"] the blob goes with its snapshots, with ["only"] the snapshots
    go and the blob stays, with neither a blob that has snapshots is refused
    (409). *)
Definition azure_delete_blob (b : BlobClient) (ds : option delete_snapshots)
    (st : azure_store) : result unit * azure_store :=
  match st !! blob_key b with
  | None => (Raise (ResourceNotFoundError "The specified blob does not exist."), st)
  | Some bl =>
      match ds with
      | Some include => (Ok tt, delete (blob_key b) st)
      | Some only =>
          (Ok tt, <[blob_key b := {| content := content bl; snapshots := [] |}]> st)
      | None =>
          match snapshots bl with
          | [] => (Ok tt, delete (blob_key b) st)
          | _ :: _ =>
              (Raise (ResourceExistsError
                        "This operation is not permitted because the blob has snapshots."),
               st)
          end
      end
  end.

(** The blob [upload_blob] leaves behind when it overwrites: the new content,
    and the snapshots the blob had. *)
Definition written (st : azure_store) (b : BlobClient) (payload : bytes) : blob :=
  {| content := payload;
     snapshots := match st !! blob_key b with
                  | Some old => snapshots old
                  | None => []
                  end |}.

#[global] Instance azure_sdk : BlobSDK azure_store := {|
  exists_ := azure_exists;
  download_blob_readall := azure_download_blob_readall;
  upload_blob := azure_upload_blob;
  delete_blob := azure_delete_blob
|}.

(** ** A storage layer shared with another writer

    The same service with a second client writing to it: after each
    modifying call of the handler the other writer performs its next pending
    upload. This is the interleaving in which the post-check of [delete_obj]
    can find the blob again. *)

Record contended := {
  blobs : azure_store;
  pending : list (string * string * string * bytes)
}.

Definition writer_step (c : contended) : contended :=
  match pending c with
  | [] => c
  | (k, d) :: rest =>
      {| blobs := <[k := {| content := d; snapshots := [] |}]> (blobs c);
         pending := rest |}
  end.

#[global] Instance contended_sdk : BlobSDK contended := {|
  exists_ b c := azure_exists b (blobs c);
  download_blob_readall b c := azure_download_blob_readall b (blobs c);
  upload_blob cc name data overwrite c :=
    match azure_upload_blob cc name data overwrite (blobs c) with
    | (r, st) => (r, writer_step {| blobs := st; pending := pending c |})
    end;
  delete_blob b ds c :=
    match azure_delete_blob b ds (blobs c) with
    | (r, st) => (r, writer_step {| blobs := st; pending := pending c |})
    end
|}.

(** ** Statements of the specification that the code does not meet *)

(** The three-way case split of [downloadToFile]: a missing remote object
    fails as [RemoteNotFound], an occupied local path fails as
    [LocalAlreadyExists], anything else writes the whole content to a new
    local file and returns [True]. [occupied] says when a file counts as
    already existing at the local path. *)
Definition download_file_claim (occupied : gmap string entry -> string -> bool)
    (s : state azure_store) (from_file_path to_file_path : string) : Prop :=
  let r := download_file from_file_path to_file_path s in
  if negb (azure_exists (blob_of (self s) from_file_path) (remote s)) then
    fails_with download_error_kind (fst r) RemoteNotFound
  else if occupied (fs s) to_file_path then
    fails_with download_error_kind (fst r) LocalAlreadyExists
  else
    fst r = Ok true /\
    exists bl,
      remote s !! blob_key (blob_of (self s) from_file_path) = Some bl /\
      fs (snd r) !! to_file_path = Some (RegularFile (content bl)).

(** Either reading of "a file already exists": a regular file, or any entry
    at all. *)
Definition path_exists (files : gmap string entry) (path : string) : bool :=
  match files !! path with
  | Some (Obstructed _) | None => false
  | Some _ => true
  end.

(** The local guard fires exactly when the destination is a regular file. *)
Definition local_guard_claim (s : state azure_store)
    (from_file_path to_file_path : string) : Prop :=
  (exists msg, fst (download_file from_file_path to_file_path s) = Raise (ValueError msg))
  <-> isfile (fs s) to_file_path = true.

(** Deleting where nothing is stored does not fail and returns [True]. *)
Definition delete_absent_claim (s : state azure_store) (file_path : string) : Prop :=
  fst (blob_exists file_path s) = Ok false ->
  fst (delete_obj file_path s) = Ok true.

(** ** Sample states *)

Definition handler0 : BlobStorageHandler :=
  __init__ "docs" "dev".

Definition key0 (path : string) : string * string * string :=
  ("dev", "docs", path).

Definition hello : bytes := [x68; x65; x6c; x6c; x6f].
Definition world : bytes := [x77; x6f; x72; x6c; x64].

(** Nothing stored, nothing on disk; every path is free. *)
Definition st_empty : state azure_store :=
  {| self := handler0; remote := ∅; fs := ∅; trace := [] |}.

(** ["a.txt"] holds [hello] and has one snapshot. *)
Definition st_hello : state azure_store :=
  {| self := handler0;
     remote := {[ key0 "a.txt" := {| content := hello; snapshots := [world] |} ]};
     fs := ∅;
     trace := [] |}.

Definition st_hello_dir : state azure_store := set_fs {[ "out" := Directory ]} st_hello.
(** The directory ["nodir"] does not exist. *)
Definition st_hello_nodir : state azure_store :=
  set_fs {[ "nodir/out" := Obstructed MissingDirectory ]} st_hello.
Definition st_hello_null : state azure_store := set_fs {[ "out" := NullDevice ]} st_hello.
Definition st_hello_file : state azure_store :=
  set_fs {[ "out" := RegularFile world ]} st_hello.
Definition st_empty_file : state azure_store :=
  set_fs {[ "out" := RegularFile world ]} st_empty.

(** ["a.txt"] is stored and another writer is about to upload it again. *)
Definition st_raced : state contended :=
  {| self := handler0;
     remote := {| blobs := {[ key0 "a.txt" := {| content := hello; snapshots := [] |} ]};
                  pending := [(key0 "a.txt", world)] |};
     fs := ∅;
     trace := [] |}.

(** A computation that leaves the handler object as it found it. *)
Definition keeps_self {store A} (m : M store A) : Prop :=
  forall s, self (snd (m s)) = self s.

(** A computation that leaves one component of the state, [proj], as it
    found it: [remote] for the calls that only read the store, [fs] for the
    calls that stay away from the local disk. *)
Definition keeps {store A X} (proj : state store -> X) (m : M store A) : Prop :=
  forall s, proj (snd (m s)) = proj s.

(** Whether [open(path, mode)] returns a file object. *)
Definition can_open (files : gmap string entry) (path : string) (mode : open_mode)
  : bool :=
  match files !! path, mode with
  | Some Directory, _ => false
  | Some (Obstructed _), _ => false
  | None, rb => false
  | _, _ => true
  end.

(** What is on disk at [path] once [download_file] has opened it and the
    download call has answered [r]. *)
Definition downloaded (r : result bytes) : entry :=
  match r with
  | Ok d => RegularFile d
  | Raise _ => RegularFile []
  end.

(** * Properties *)

(** ** What the methods evaluate to, for any storage layer *)

Section Runs.
Context {store : Type} `{!BlobSDK store}.
Implicit Types (s : state store) (p : string).

Lemma get_container_client_run s :
  get_container_client s = (Ok (container_of (self s)), s).
Proof. reflexivity. Qed.

Lemma get_blob_client_run s p :
  get_blob_client p s = (Ok (blob_of (self s) p), s).
Proof. reflexivity. Qed.

Lemma blob_exists_run s p :
  blob_exists p s =
  (Ok (exists_ (blob_of (self s) p) (remote s)),
   log (CallExists (blob_of (self s) p)) s).
Proof. reflexivity. Qed.

Lemma read_obj_run s p :
  read_obj p s =
  (download_blob_readall (blob_of (self s) p) (remote s),
   log (CallDownloadBlob (blob_of (self s) p)) s).
Proof. reflexivity. Qed.

Lemma blob_exists_fst s p v :
  fst (blob_exists p s) = Ok v <-> exists_ (blob_of (self s) p) (remote s) = v.
Proof. rewrite blob_exists_run. simpl. split; congruence. Qed.

(** The guard of [download_file] for a missing remote blob: one [exists]
    call, then the exception. *)
Lemma download_file_remote_missing s from_file_path to_file_path :
  exists_ (blob_of (self s) from_file_path) (remote s) = false ->
  download_file from_file_path to_file_path s =
  (Raise (ResourceExistsError
            ("The specified blob `" ++ to_file_path ++ "` does not exists.")),
   log (CallExists (blob_of (self s) from_file_path)) s).
Proof.
  intros Hex. unfold download_file, bind. rewrite blob_exists_run, Hex.
  reflexivity.
Qed.

(** The guard for an occupied destination: [exists], [isfile], then the
    exception. *)
Lemma download_file_local_present s from_file_path to_file_path :
  exists_ (blob_of (self s) from_file_path) (remote s) = true ->
  isfile (fs s) to_file_path = true ->
  download_file from_file_path to_file_path s =
  (Raise (ValueError
            ("The specified file `" ++ to_file_path ++ "` already exists.")),
   log (CallIsFile to_file_path) (log (CallExists (blob_of (self s) from_file_path)) s)).
Proof.
  intros Hex Hfile. unfold download_file, bind. rewrite blob_exists_run, Hex.
  simpl. unfold os_path_isfile. simpl. rewrite Hfile. reflexivity.
Qed.

End Runs.

(** ** Messages: an f-string determines the path put into it *)

Lemma append_cons c (a b : string) : (String c a ++ b = String c (a ++ b))%string.
Proof. reflexivity. Qed.

Lemma length_append (a b : string) :
  String.length (a ++ b) = String.length a + String.length b.
Proof.
  induction a as [|c a IH]; [reflexivity|].
  rewrite append_cons. simpl. now rewrite IH.
Qed.

Lemma append_inj_suffix (a b t : string) : (a ++ t = b ++ t)%string -> a = b.
Proof.
  revert b. induction a as [|c a IH]; intros [|d b] Heq.
  - reflexivity.
  - apply (f_equal String.length) in Heq.
    rewrite !length_append in Heq. simpl in Heq. lia.
  - apply (f_equal String.length) in Heq.
    rewrite !length_append in Heq. simpl in Heq. lia.
  - rewrite !append_cons in Heq. injection Heq as -> Heq.
    f_equal. now apply IH.
Qed.

Lemma message_inj (pre post a b : string) :
  (pre ++ a ++ post = pre ++ b ++ post)%string -> a = b.
Proof.
  intros Heq. apply (inj (String.app pre)) in Heq.
  now apply append_inj_suffix in Heq.
Qed.

(** ** Error message of a failed download *)

(** C9. When [download_file] fails because the remote blob is absent, the
    exception is [ResourceExistsError] and its message is built from
    [to_file_path], the local destination: "The specified blob
    `<to_file_path>` does not exists.". Whenever the two paths differ, this
    is not the message that names [from_file_path], the blob that is
    missing. The storage layer is arbitrary. *)
Theorem download_file_missing_remote_names_destination
    {store : Type} `{!BlobSDK store}
    (s : state store) (from_file_path to_file_path : string) :
  fst (blob_exists from_file_path s) = Ok false ->
  fst (download_file from_file_path to_file_path s) =
    Raise (ResourceExistsError
             ("The specified blob `" ++ to_file_path ++ "` does not exists."))
  /\ (from_file_path <> to_file_path ->
      fst (download_file from_file_path to_file_path s) <>
        Raise (ResourceExistsError
                 ("The specified blob `" ++ from_file_path ++ "` does not exists."))).
Proof.
  intros Hex%blob_exists_fst.
  rewrite (download_file_remote_missing _ _ _ Hex). simpl. split; [reflexivity|].
  intros Hne Heq. apply Hne. injection Heq as Heq.
  symmetry. exact (message_inj _ _ _ _ Heq).
Qed.

(** ** The handler object across calls *)

Section KeepsSelf.
Context {store : Type} `{!BlobSDK store}.

Lemma keeps_self_ret {A} (a : A) : keeps_self (store:=store) (ret a).
Proof. intros s. reflexivity. Qed.

Lemma keeps_self_raise {A} (e : exn) : keeps_self (store:=store) (A:=A) (raise e).
Proof. intros s. reflexivity. Qed.

Lemma keeps_self_bind {A B} (m : M store A) (k : A -> M store B) :
  keeps_self m -> (forall a, keeps_self (k a)) -> keeps_self (bind m k).
Proof.
  intros Hm Hk s. unfold bind. specialize (Hm s).
  destruct (m s) as [[a|e] s1]; simpl in *; [|exact Hm].
  rewrite Hk. exact Hm.
Qed.

Lemma keeps_self_finally {A} (body : M store A) (cleanup : M store unit) :
  keeps_self body -> keeps_self cleanup -> keeps_self (finally body cleanup).
Proof.
  intros Hb Hc s. unfold finally. specialize (Hb s).
  destruct (body s) as [r s1]. specialize (Hc s1).
  destruct (cleanup s1) as [[u|e] s2]; simpl in *; congruence.
Qed.

Lemma keeps_self_if {A} (b : bool) (m1 m2 : M store A) :
  keeps_self m1 -> keeps_self m2 -> keeps_self (if b then m1 else m2).
Proof. destruct b; auto. Qed.

Lemma keeps_self_get_self : keeps_self (store:=store) get_self.
Proof. intros s. reflexivity. Qed.

Lemma keeps_self_call_exists b : keeps_self (call_exists b).
Proof. intros s. reflexivity. Qed.

Lemma keeps_self_call_download b : keeps_self (call_download_blob_readall b).
Proof. intros s. reflexivity. Qed.

Lemma keeps_self_call_upload c name data overwrite :
  keeps_self (call_upload_blob c name data overwrite).
Proof.
  intros s. unfold call_upload_blob.
  destruct (upload_blob _ _ _ _ _) as [r st]. reflexivity.
Qed.

Lemma keeps_self_call_delete b ds : keeps_self (call_delete_blob b ds).
Proof.
  intros s. unfold call_delete_blob.
  destruct (delete_blob _ _ _) as [r st]. reflexivity.
Qed.

Lemma keeps_self_isfile path : keeps_self (os_path_isfile (store:=store) path).
Proof. intros s. reflexivity. Qed.

Lemma keeps_self_open path mode : keeps_self (open (store:=store) path mode).
Proof.
  intros s. unfold open.
  destruct (fs s !! path) as [[| | |why]|], mode; reflexivity.
Qed.

Lemma keeps_self_write f data : keeps_self (file_write (store:=store) f data).
Proof.
  intros s. unfold file_write.
  destruct (fs s !! file_name f) as [[| | |why]|]; reflexivity.
Qed.

Lemma keeps_self_close f : keeps_self (file_close (store:=store) f).
Proof. intros s. reflexivity. Qed.

Lemma keeps_self_fmap {A B} (f : A -> B) (m : M store A) :
  keeps_self m -> keeps_self (fun s => fmap_result f (m s)).
Proof.
  intros Hm s. specialize (Hm s). destruct (m s) as [[a|e] s1]; exact Hm.
Qed.

End KeepsSelf.

Create HintDb keeps_self.
#[global] Hint Resolve keeps_self_ret keeps_self_raise keeps_self_bind
  keeps_self_finally keeps_self_if keeps_self_get_self keeps_self_call_exists
  keeps_self_call_download keeps_self_call_upload keeps_self_call_delete
  keeps_self_isfile keeps_self_open keeps_self_write keeps_self_close
  : keeps_self.

Ltac keeps_self :=
  repeat first
    [ apply keeps_self_bind; [|intros ?]
    | apply keeps_self_finally
    | apply keeps_self_if
    | solve [auto with keeps_self] ].

Section Methods.
Context {store : Type} `{!BlobSDK store}.

Lemma keeps_self_get_blob_client p : keeps_self (get_blob_client (store:=store) p).
Proof. intros s. reflexivity. Qed.

Lemma keeps_self_blob_exists p : keeps_self (blob_exists (store:=store) p).
Proof. intros s. reflexivity. Qed.

Lemma keeps_self_read_obj p : keeps_self (read_obj (store:=store) p).
Proof. intros s. reflexivity. Qed.

Lemma keeps_self_save_obj data p overwrite : keeps_self (save_obj (store:=store) data p overwrite).
Proof.
  unfold save_obj, get_container_client, create_client.
  pose proof keeps_self_blob_exists. keeps_self.
Qed.

Lemma keeps_self_download_file src dst : keeps_self (download_file (store:=store) src dst).
Proof.
  unfold download_file, with_open.
  pose proof keeps_self_blob_exists. pose proof keeps_self_get_blob_client.
  keeps_self.
Qed.

Lemma keeps_self_upload_file src dst overwrite :
  keeps_self (upload_file (store:=store) src dst overwrite).
Proof.
  unfold upload_file, with_open.
  pose proof keeps_self_save_obj. keeps_self.
Qed.

Lemma keeps_self_delete_obj p : keeps_self (delete_obj (store:=store) p).
Proof.
  unfold delete_obj.
  pose proof keeps_self_blob_exists. pose proof keeps_self_get_blob_client.
  keeps_self.
Qed.

Lemma keeps_self_run_op op : keeps_self (run_op (store:=store) op).
Proof.
  destruct op; unfold run_op; apply keeps_self_fmap;
    auto using keeps_self_blob_exists, keeps_self_read_obj,
      keeps_self_download_file, keeps_self_upload_file, keeps_self_save_obj,
      keeps_self_delete_obj.
Qed.

End Methods.

(** C8. The configuration is fixed at construction. Every public operation,
    on every state and over every storage layer, leaves the handler object,
    and with it the connection string and the container name, as it was;
    the handler is nothing but what [__init__] builds from these two
    strings; and an assignment to a field of the frozen configuration raises
    and changes nothing. *)
Theorem configuration_is_immutable {store : Type} `{!BlobSDK store}
    (op : operation) (s : state store) :
  self (snd (run_op op s)) = self s
  /\ conn_str (client_params (self (snd (run_op op s)))) = conn_str (client_params (self s))
  /\ container_name (client_params (self (snd (run_op op s))))
     = container_name (client_params (self s))
  /\ self s = __init__ (container_name (client_params (self s)))
                       (conn_str (client_params (self s)))
  /\ (forall field value,
        exists msg,
          ClientParamsInput_setattr (client_params (self s)) field value
          = (Raise (FrozenInstanceError msg), client_params (self s))).
Proof.
  pose proof (keeps_self_run_op op s) as Hself.
  rewrite Hself. repeat split.
  - destruct (self s) as [[cs cn]]. reflexivity.
  - intros field value. eexists. reflexivity.
Qed.

(** ** Delegation of [upload_file] *)

Section Delegation.
Context {store : Type} `{!BlobSDK store}.
Implicit Types (s : state store).

(** [save_obj] reads a file object only when it uploads, and nothing
    before that touches the filesystem. *)
Lemma save_obj_file_object f p overwrite s :
  save_obj (FileObject f) p overwrite s =
  save_obj (Bytes (read_upload_data (FileObject f) (fs s))) p overwrite s.
Proof.
  unfold save_obj, bind. destruct overwrite; simpl.
  - reflexivity.
  - destruct (exists_ _ _); reflexivity.
Qed.

Lemma upload_file_eq_spec src dst overwrite s :
  upload_file src dst overwrite s = upload_file_spec src dst overwrite s.
Proof.
  unfold upload_file, upload_file_spec, with_open, bind.
  destruct (open src rb s) as [[f|e] s1]; [|reflexivity].
  unfold finally. rewrite save_obj_file_object. reflexivity.
Qed.

Lemma upload_file_readable src dst overwrite s data :
  fs s !! src = Some (RegularFile data) ->
  upload_file src dst overwrite s =
  match save_obj (Bytes data) dst overwrite (log (CallOpen src rb) s) with
  | (r, s') => (r, log (CallClose src) s')
  end.
Proof.
  intros Hfile. unfold upload_file, with_open, bind, open. rewrite Hfile.
  unfold finally. rewrite save_obj_file_object. simpl. rewrite Hfile.
  destruct (save_obj _ _ _ _) as [r s']. reflexivity.
Qed.

End Delegation.

(** C7. [upload_file] is [save_obj] on the contents of the local file,
    between the opening and the closing of that file. On every state it
    coincides with the delegation as the specification words it (open for
    reading, take the contents, call [save_obj] on them); and when the local
    path is a regular file holding [data], its result, a handle or an
    exception, is the result of [save_obj] on [data] with the same remote
    path and flag, run after the [open] call and followed by the [close]. *)
Theorem upload_file_delegates_to_save_obj {store : Type} `{!BlobSDK store}
    (s : state store) (from_file_path to_file_path : string) (overwrite : bool)
    (data : bytes) :
  fs s !! from_file_path = Some (RegularFile data) ->
  upload_file from_file_path to_file_path overwrite s
    = upload_file_spec from_file_path to_file_path overwrite s
  /\ upload_file from_file_path to_file_path overwrite s
     = match save_obj (Bytes data) to_file_path overwrite
               (log (CallOpen from_file_path rb) s) with
       | (r, s') => (r, log (CallClose from_file_path) s')
       end.
Proof.
  intros Hfile. split.
  - apply upload_file_eq_spec.
  - now apply upload_file_readable.
Qed.

(** ** Deleting, for any storage layer *)

Section Delete.
Context {store : Type} `{!BlobSDK store}.
Implicit Types (s : state store).

(** [delete_obj] is the delete call with ["include"], then the post-check
    on the state the call left. *)
Lemma delete_obj_run p s :
  delete_obj p s =
  match delete_blob (blob_of (self s) p) (Some include) (remote s) with
  | (Ok _, st) =>
      (Ok (negb (exists_ (blob_of (self s) p) st)),
       log (CallExists (blob_of (self s) p))
         (set_remote st (log (CallDeleteBlob (blob_of (self s) p) (Some include)) s)))
  | (Raise e, st) =>
      (Raise e,
       set_remote st (log (CallDeleteBlob (blob_of (self s) p) (Some include)) s))
  end.
Proof.
  unfold delete_obj, bind, call_delete_blob. simpl.
  destruct (delete_blob _ _ _) as [[u|e] st]; simpl; [|reflexivity].
  destruct (exists_ _ _); reflexivity.
Qed.

Lemma delete_obj_post_check p s s' (b : bool) :
  delete_obj p s = (Ok b, s') ->
  (b = true <-> fst (blob_exists p s') = Ok false)
  /\ trace s' = trace s ++ [CallDeleteBlob (blob_of (self s) p) (Some include);
                            CallExists (blob_of (self s) p)].
Proof.
  rewrite delete_obj_run.
  destruct (delete_blob _ _ _) as [[u|e] st]; [|discriminate].
  intros [= <- <-]. rewrite blob_exists_fst. simpl. split.
  - destruct (exists_ _ _); simpl; split; congruence.
  - now rewrite <- app_assoc.
Qed.

End Delete.

(** ** The reference storage layer *)

Section Azure.
Implicit Types (s : state azure_store) (p : string) (b : BlobClient).

Lemma azure_exists_true b (st : azure_store) :
  azure_exists b st = true <-> exists bl, st !! blob_key b = Some bl.
Proof.
  unfold azure_exists. destruct (st !! blob_key b) as [bl|]; split.
  - eauto.
  - reflexivity.
  - discriminate.
  - intros [bl [=]].
Qed.

Lemma azure_exists_false b (st : azure_store) :
  azure_exists b st = false <-> st !! blob_key b = None.
Proof.
  unfold azure_exists. destruct (st !! blob_key b) as [bl|]; split;
    congruence.
Qed.

Lemma blob_exists_true s p :
  fst (blob_exists p s) = Ok true <->
  exists bl, remote s !! blob_key (blob_of (self s) p) = Some bl.
Proof. rewrite blob_exists_fst. apply azure_exists_true. Qed.

Lemma blob_exists_false s p :
  fst (blob_exists p s) = Ok false <->
  remote s !! blob_key (blob_of (self s) p) = None.
Proof. rewrite blob_exists_fst. apply azure_exists_false. Qed.

Lemma blob_key_blob_of h p :
  blob_key (blob_of h p)
  = (conn_str (client_params h), container_name (client_params h), p).
Proof. reflexivity. Qed.

Lemma read_obj_present s p bl :
  remote s !! blob_key (blob_of (self s) p) = Some bl ->
  read_obj p s = (Ok (content bl), log (CallDownloadBlob (blob_of (self s) p)) s).
Proof.
  intros Hbl. rewrite read_obj_run. simpl.
  unfold azure_download_blob_readall. now rewrite Hbl.
Qed.

Lemma read_obj_absent s p :
  remote s !! blob_key (blob_of (self s) p) = None ->
  read_obj p s =
  (Raise (ResourceNotFoundError "The specified blob does not exist."),
   log (CallDownloadBlob (blob_of (self s) p)) s).
Proof.
  intros Hbl. rewrite read_obj_run. simpl.
  unfold azure_download_blob_readall. now rewrite Hbl.
Qed.

End Azure.

(** ** Reading *)

(** C6. [read_obj] returns the whole stored content of the blob when the
    blob exists. When it does not, the call fails with the
    [ResourceNotFoundError] of the storage layer. In both cases the result is
    the one of the download call, which is the only collaborator call
    issued: no [exists] call precedes it. *)
Theorem read_obj_content_or_not_found (s : state azure_store) (file_path : string) :
  let b := blob_of (self s) file_path in
  (fst (blob_exists file_path s) = Ok true ->
     exists bl,
       remote s !! blob_key b = Some bl /\
       read_obj file_path s = (Ok (content bl), log (CallDownloadBlob b) s))
  /\ (fst (blob_exists file_path s) = Ok false ->
        read_obj file_path s =
        (Raise (ResourceNotFoundError "The specified blob does not exist."),
         log (CallDownloadBlob b) s))
  /\ read_obj file_path s
     = (download_blob_readall b (remote s), log (CallDownloadBlob b) s).
Proof.
  intros b. split; [|split].
  - intros [bl Hbl]%blob_exists_true. exists bl.
    split; [exact Hbl|]. now apply read_obj_present.
  - intros Hbl%blob_exists_false. now apply read_obj_absent.
  - apply read_obj_run.
Qed.

(** ** Deleting *)

(** C3. [delete_obj] issues the delete call with
    [delete_snapshots="include"] and then asks whether the blob exists.
    Over any storage layer, a value it returns is [True] exactly when a
    following [blob_exists] on the resulting state returns [False]. On the
    reference storage layer, where no other writer interferes, deleting an
    existing blob returns [True], removes the blob together with its
    snapshots, leaves the local filesystem alone, and a following
    [blob_exists] returns [False]. Where no blob is stored the equivalence
    breaks: the blob is absent after the call, as it was before, yet the
    call returns no value; it raises. *)
Theorem delete_obj_reports_absence :
  (forall (store : Type) (sdk : BlobSDK store) (s s' : state store)
          (file_path : string) (b : bool),
      delete_obj file_path s = (Ok b, s') ->
      (b = true <-> fst (blob_exists file_path s') = Ok false)
      /\ trace s' = trace s ++ [CallDeleteBlob (blob_of (self s) file_path) (Some include);
                                CallExists (blob_of (self s) file_path)])
  /\ (forall (s : state azure_store) (file_path : string),
        fst (blob_exists file_path s) = Ok true ->
        exists s',
          delete_obj file_path s = (Ok true, s')
          /\ remote s' = delete (blob_key (blob_of (self s) file_path)) (remote s)
          /\ fs s' = fs s
          /\ fst (blob_exists file_path s') = Ok false)
  /\ (forall (s : state azure_store) (file_path : string),
        fst (blob_exists file_path s) = Ok false ->
        (exists e, fst (delete_obj file_path s) = Raise e)
        /\ fst (delete_obj file_path s) <> Ok true
        /\ fst (blob_exists file_path (snd (delete_obj file_path s))) = Ok false).
Proof.
  split; [|split].
  - intros store sdk s s' p b. apply delete_obj_post_check.
  - intros s p [bl Hbl]%blob_exists_true.
    eexists. rewrite delete_obj_run. simpl. unfold azure_delete_blob, azure_exists.
    rewrite Hbl, lookup_delete_eq. simpl. split; [reflexivity|].
    split; [reflexivity|]. split; [reflexivity|].
    apply blob_exists_false. simpl. apply lookup_delete_eq.
  - intros s p Hbl%blob_exists_false.
    rewrite delete_obj_run. simpl. unfold azure_delete_blob. rewrite Hbl.
    cbn [fst snd]. split; [eexists; reflexivity|]. split; [discriminate|].
    apply blob_exists_false. exact Hbl.
Qed.

(** C4. Where no blob is stored, [delete_obj] does not return [True]: it
    issues the delete call first, with no existence check before it, the
    reference storage layer answers that call with
    [ResourceNotFoundError], and the exception leaves the method. The
    post-check is never run and the store is as before. *)
Theorem delete_obj_absent_raises_not_found (s : state azure_store) (file_path : string) :
  fst (blob_exists file_path s) = Ok false ->
  exists msg,
    delete_obj file_path s =
    (Raise (ResourceNotFoundError msg),
     log (CallDeleteBlob (blob_of (self s) file_path) (Some include)) s).
Proof.
  intros Hbl%blob_exists_false.
  rewrite delete_obj_run. simpl. unfold azure_delete_blob. rewrite Hbl.
  eexists. destruct s; reflexivity.
Qed.

(** ** Saving *)

Section AzureSave.
Implicit Types (s : state azure_store) (p : string).

Lemma azure_upload_overwrite (c : ContainerClient) (name : string)
    (payload : bytes) (st : azure_store) :
  azure_upload_blob c name payload true st =
  (Ok (sdk_get_blob_client c name),
   <[blob_key (sdk_get_blob_client c name) :=
       written st (sdk_get_blob_client c name) payload]> st).
Proof.
  unfold azure_upload_blob, written.
  destruct (st !! blob_key _); reflexivity.
Qed.

Lemma save_obj_refused s data p :
  exists_ (blob_of (self s) p) (remote s) = true ->
  save_obj data p false s =
  (Raise (ResourceExistsError ("The specified blob `" ++ p ++ "` already exists")),
   log (CallExists (blob_of (self s) p)) s).
Proof.
  intros Hex. unfold save_obj, bind. cbn [negb].
  rewrite blob_exists_run, Hex. reflexivity.
Qed.

Lemma save_obj_written s data p overwrite :
  overwrite = true \/ exists_ (blob_of (self s) p) (remote s) = false ->
  let b := blob_of (self s) p in
  let payload := read_upload_data data (fs s) in
  save_obj data p overwrite s =
  (Ok b,
   set_remote (<[blob_key b := written (remote s) b payload]> (remote s))
     (log (CallUploadBlob (container_of (self s)) p payload true)
        (if overwrite then s else log (CallExists b) s))).
Proof.
  intros Hcase b payload. unfold save_obj, bind.
  destruct overwrite; cbn [negb].
  - unfold call_upload_blob. simpl. rewrite azure_upload_overwrite. reflexivity.
  - destruct Hcase as [|Hex]; [discriminate|]. rewrite blob_exists_run, Hex.
    unfold call_upload_blob. simpl. rewrite azure_upload_overwrite. reflexivity.
Qed.

End AzureSave.

(** C2. For every [data], path and state: with [overwrite=False] and a blob
    already at the path, [save_obj] raises [ResourceExistsError] (the
    [AlreadyExists] kind) after the one [exists] call, and store and
    filesystem are as before. In every other case, [overwrite=True] or no
    blob at the path, it calls [upload_blob] on [data] with
    [overwrite=True], returns the client of the blob at the path, and the
    blob then holds exactly [data]: a following [read_obj] returns [data].
    An open file object on a regular file is saved as the bytes of that
    file. *)
Theorem save_obj_overwrite_guard (s : state azure_store) (data : bytes)
    (file_path : string) (overwrite : bool) :
  let b := blob_of (self s) file_path in
  (overwrite = false -> fst (blob_exists file_path s) = Ok true ->
     exists s',
       save_obj (Bytes data) file_path overwrite s =
         (Raise (ResourceExistsError
                   ("The specified blob `" ++ file_path ++ "` already exists")), s')
       /\ fails_with save_error_kind
            (fst (save_obj (Bytes data) file_path overwrite s)) AlreadyExists
       /\ remote s' = remote s /\ fs s' = fs s
       /\ trace s' = trace s ++ [CallExists b])
  /\ (overwrite = true \/ fst (blob_exists file_path s) = Ok false ->
      exists s',
        save_obj (Bytes data) file_path overwrite s = (Ok b, s')
        /\ remote s' = <[blob_key b := written (remote s) b data]> (remote s)
        /\ content <$> remote s' !! blob_key b = Some data
        /\ fs s' = fs s
        /\ trace s' = trace s ++ (if overwrite then [] else [CallExists b])
                      ++ [CallUploadBlob (container_of (self s)) file_path data true]
        /\ fst (read_obj file_path s') = Ok data)
  /\ (forall f, fs s !! file_name f = Some (RegularFile data) ->
        save_obj (FileObject f) file_path overwrite s
        = save_obj (Bytes data) file_path overwrite s).
Proof.
  intros b. split; [|split].
  - intros -> Hex%blob_exists_fst.
    rewrite (save_obj_refused _ _ _ Hex). eexists. split; [reflexivity|].
    simpl. repeat split.
  - intros Hcase. rewrite blob_exists_fst in Hcase.
    rewrite (save_obj_written _ _ _ _ Hcase). cbn [read_upload_data].
    eexists. split; [reflexivity|].
    split; [reflexivity|].
    split; [cbn [remote set_remote]; now rewrite lookup_insert_eq|].
    split; [destruct overwrite; reflexivity|]. split.
    + destruct overwrite; simpl; [reflexivity|]. now rewrite <- app_assoc.
    + rewrite (read_obj_present _ _ (written (remote s) b data)); [reflexivity|].
      destruct overwrite; simpl; apply lookup_insert_eq.
  - intros f Hfile. rewrite save_obj_file_object. simpl. now rewrite Hfile.
Qed.

(** C5. After a first [save_obj] of [data] at [p] without [overwrite] has
    succeeded, a second one of [data2] without [overwrite] raises
    [ResourceExistsError] (the [AlreadyExists] kind) and [read_obj] still
    returns [data]; a second one with [overwrite=True] succeeds and
    [read_obj] then returns [data2]. *)
Theorem save_obj_twice (s s1 : state azure_store) (data data2 : bytes)
    (p : string) (h : BlobClient) :
  save_obj (Bytes data) p false s = (Ok h, s1) ->
  (exists msg s2,
     save_obj (Bytes data2) p false s1 = (Raise (ResourceExistsError msg), s2)
     /\ fails_with save_error_kind (fst (save_obj (Bytes data2) p false s1)) AlreadyExists
     /\ fst (read_obj p s2) = Ok data)
  /\ (exists h2 s2,
        save_obj (Bytes data2) p true s1 = (Ok h2, s2)
        /\ fst (read_obj p s2) = Ok data2).
Proof.
  intros Hfirst.
  destruct (exists_ (blob_of (self s) p) (remote s)) eqn:Hex.
  { rewrite (save_obj_refused _ _ _ Hex) in Hfirst. discriminate. }
  rewrite (save_obj_written s (Bytes data) p false (or_intror Hex)) in Hfirst.
  injection Hfirst as <- Hs1. cbn [read_upload_data] in Hs1.
  set (b := blob_of (self s) p) in *.
  assert (Hb : blob_of (self s1) p = b) by now subst s1.
  assert (Hstored : remote s1 !! blob_key b = Some (written (remote s) b data)).
  { subst s1. simpl. apply lookup_insert_eq. }
  assert (Hex1 : exists_ (blob_of (self s1) p) (remote s1) = true).
  { rewrite Hb. simpl. unfold azure_exists. now rewrite Hstored. }
  split.
  - exists ("The specified blob `" ++ p ++ "` already exists")%string,
           (log (CallExists (blob_of (self s1) p)) s1).
    rewrite (save_obj_refused s1 (Bytes data2) p Hex1).
    split; [reflexivity|]. split; [reflexivity|].
    rewrite (read_obj_present _ p (written (remote s) b data)); [reflexivity|].
    simpl. now rewrite Hb.
  - rewrite (save_obj_written s1 (Bytes data2) p true (or_introl eq_refl)).
    eexists _, _. split; [reflexivity|].
    rewrite (read_obj_present _ p (written (remote s1) (blob_of (self s1) p) data2));
      [reflexivity|].
    simpl. apply lookup_insert_eq.
Qed.

(** ** Downloading *)

Section AzureDownload.
Implicit Types (s : state azure_store) (src dst : string).

(** Past both guards [download_file] opens the destination; what follows
    depends on the entry found there. *)
Lemma download_file_opens s src dst bl :
  remote s !! blob_key (blob_of (self s) src) = Some bl ->
  isfile (fs s) dst = false ->
  let b := blob_of (self s) src in
  let s2 := log (CallOpen dst wb) (log (CallIsFile dst) (log (CallExists b) s)) in
  download_file src dst s =
  match fs s !! dst with
  | Some Directory =>
      (Raise (IsADirectoryError ("[Errno 21] Is a directory: '" ++ dst ++ "'")), s2)
  | Some NullDevice =>
      (Ok true,
       log (CallClose dst)
         (log (CallWrite dst (content bl)) (log (CallDownloadBlob b) s2)))
  | Some (Obstructed why) => (Raise (open_error wb why dst), s2)
  | _ =>
      (Ok true,
       log (CallClose dst)
         (set_fs (<[dst := RegularFile (content bl)]> (fs s))
            (log (CallWrite dst (content bl)) (log (CallDownloadBlob b) s2))))
  end.
Proof.
  intros Hbl Hfile b s2. fold b in Hbl.
  assert (Hex : exists_ b (remote s) = true).
  { simpl. unfold azure_exists. now rewrite Hbl. }
  unfold download_file, bind. rewrite blob_exists_run. fold b. rewrite Hex.
  cbn [negb]. unfold os_path_isfile. cbn [fs log]. rewrite Hfile.
  unfold with_open, bind, open, finally. cbn [fs log].
  unfold isfile in Hfile.
  destruct (fs s !! dst) as [[d| | |why]|] eqn:Hdst; try discriminate.
  - reflexivity.
  - rewrite get_blob_client_run. unfold call_download_blob_readall.
    cbn [self remote log set_fs]. fold b. simpl download_blob_readall.
    unfold azure_download_blob_readall. rewrite Hbl.
    unfold file_write. cbn [fs log set_fs file_name]. rewrite Hdst. reflexivity.
  - reflexivity.
  - rewrite get_blob_client_run. unfold call_download_blob_readall.
    cbn [self remote log set_fs]. fold b. simpl download_blob_readall.
    unfold azure_download_blob_readall. rewrite Hbl.
    unfold file_write. cbn [fs log set_fs file_name].
    rewrite lookup_insert_eq. unfold file_close, set_fs, log. simpl.
    now rewrite insert_insert_eq.
Qed.

End AzureDownload.

(** C1, as the code has it. For every remote path and local path:
    - when the remote blob does not exist, [download_file] raises
      [ResourceExistsError], which stands for the [RemoteNotFound] kind, and
      touches neither store nor filesystem;
    - when it exists and the local path is a regular file, it raises
      [ValueError], the [LocalAlreadyExists] kind, and the file is as before;
    - when it exists and the local path is free (nothing exists there and a
      file can be created there), it creates the file, writes the whole
      content of the blob into it and returns [True];
    - when it exists and the local path is a directory, the guard lets the
      call through and the [IsADirectoryError] of [open] reaches the
      caller;
    - when it exists and nothing exists at the local path but no file can be
      created there (the directory is missing, for one), the guard lets the
      call through, the error of [open] reaches the caller and nothing is
      written. *)
Theorem download_file_cases (s : state azure_store)
    (from_file_path to_file_path : string) :
  (fst (blob_exists from_file_path s) = Ok false ->
     exists s',
       download_file from_file_path to_file_path s =
         (Raise (ResourceExistsError
                   ("The specified blob `" ++ to_file_path ++ "` does not exists.")), s')
       /\ fails_with download_error_kind
            (fst (download_file from_file_path to_file_path s)) RemoteNotFound
       /\ remote s' = remote s /\ fs s' = fs s)
  /\ (fst (blob_exists from_file_path s) = Ok true ->
      isfile (fs s) to_file_path = true ->
      exists s',
        download_file from_file_path to_file_path s =
          (Raise (ValueError
                    ("The specified file `" ++ to_file_path ++ "` already exists.")), s')
        /\ fails_with download_error_kind
             (fst (download_file from_file_path to_file_path s)) LocalAlreadyExists
        /\ remote s' = remote s /\ fs s' = fs s)
  /\ (fst (blob_exists from_file_path s) = Ok true ->
      fs s !! to_file_path = None ->
      exists bl s',
        remote s !! blob_key (blob_of (self s) from_file_path) = Some bl
        /\ download_file from_file_path to_file_path s = (Ok true, s')
        /\ remote s' = remote s
        /\ fs s' = <[to_file_path := RegularFile (content bl)]> (fs s))
  /\ (fst (blob_exists from_file_path s) = Ok true ->
      fs s !! to_file_path = Some Directory ->
      exists s',
        download_file from_file_path to_file_path s =
          (Raise (IsADirectoryError
                    ("[Errno 21] Is a directory: '" ++ to_file_path ++ "'")), s')
        /\ remote s' = remote s /\ fs s' = fs s)
  /\ (forall why,
        fst (blob_exists from_file_path s) = Ok true ->
        fs s !! to_file_path = Some (Obstructed why) ->
        exists s',
          download_file from_file_path to_file_path s =
            (Raise (open_error wb why to_file_path), s')
          /\ remote s' = remote s /\ fs s' = fs s).
Proof.
  split; [|split; [|split; [|split]]].
  - intros Hex%blob_exists_fst.
    rewrite (download_file_remote_missing _ _ _ Hex).
    eexists. split; [reflexivity|]. repeat split.
  - intros Hex%blob_exists_fst Hfile.
    rewrite (download_file_local_present _ _ _ Hex Hfile).
    eexists. split; [reflexivity|]. repeat split.
  - intros [bl Hbl]%blob_exists_true Hnone.
    assert (Hfile : isfile (fs s) to_file_path = false).
    { unfold isfile. now rewrite Hnone. }
    rewrite (download_file_opens _ _ _ _ Hbl Hfile). rewrite Hnone.
    exists bl. eexists. split; [exact Hbl|]. split; [reflexivity|].
    split; reflexivity.
  - intros [bl Hbl]%blob_exists_true Hdir.
    assert (Hfile : isfile (fs s) to_file_path = false).
    { unfold isfile. now rewrite Hdir. }
    rewrite (download_file_opens _ _ _ _ Hbl Hfile). rewrite Hdir.
    eexists. split; [reflexivity|]. split; reflexivity.
  - intros why [bl Hbl]%blob_exists_true Hblocked.
    assert (Hfile : isfile (fs s) to_file_path = false).
    { unfold isfile. now rewrite Hblocked. }
    rewrite (download_file_opens _ _ _ _ Hbl Hfile). rewrite Hblocked.
    eexists. split; [reflexivity|]. split; reflexivity.
Qed.

(** C10, as the code has it. Once the remote blob exists, [download_file]
    raises its [ValueError] exactly when the destination is a regular file.
    A destination that is not a regular file, a directory or another kind of
    entry included, passes the guard and [open(to_file_path, "wb")] is the
    next call; on a directory that call raises [IsADirectoryError]. *)
Theorem download_file_local_guard (s : state azure_store)
    (from_file_path to_file_path : string) :
  fst (blob_exists from_file_path s) = Ok true ->
  let b := blob_of (self s) from_file_path in
  ((exists msg,
      fst (download_file from_file_path to_file_path s) = Raise (ValueError msg))
   <-> isfile (fs s) to_file_path = true)
  /\ (isfile (fs s) to_file_path = false ->
      exists rest,
        trace (snd (download_file from_file_path to_file_path s)) =
        trace s ++ [CallExists b; CallIsFile to_file_path; CallOpen to_file_path wb]
                ++ rest)
  /\ (fs s !! to_file_path = Some Directory ->
      download_file from_file_path to_file_path s =
      (Raise (IsADirectoryError ("[Errno 21] Is a directory: '" ++ to_file_path ++ "'")),
       log (CallOpen to_file_path wb)
         (log (CallIsFile to_file_path) (log (CallExists b) s)))).
Proof.
  intros Hex b. pose proof Hex as [bl Hbl]%blob_exists_true.
  apply blob_exists_fst in Hex.
  split; [|split].
  - destruct (isfile (fs s) to_file_path) eqn:Hfile.
    + rewrite (download_file_local_present _ _ _ Hex Hfile). simpl.
      split; [reflexivity|]. intros _. eexists. reflexivity.
    + rewrite (download_file_opens _ _ _ _ Hbl Hfile).
      split; [|discriminate]. intros [msg Hmsg].
      destruct (fs s !! to_file_path) as [[d| | |[| |]]|]; discriminate.
  - intros Hfile. rewrite (download_file_opens _ _ _ _ Hbl Hfile). fold b.
    destruct (fs s !! to_file_path) as [[d| | |why]|]; simpl;
      rewrite <- ?app_assoc; simpl; eexists; reflexivity.
  - intros Hdir.
    assert (Hfile : isfile (fs s) to_file_path = false).
    { unfold isfile. now rewrite Hdir. }
    rewrite (download_file_opens _ _ _ _ Hbl Hfile). now rewrite Hdir.
Qed.

(** ** Where those statements fail *)

(** C1 as stated: the blob ["a.txt"] exists and ["out"] is a directory. The
    guard on the local path lets the call through, [open] raises
    [IsADirectoryError]: the call neither succeeds nor fails as
    [LocalAlreadyExists], whichever way "a file already exists" is read. *)
Lemma download_file_claim_fails_on_directory :
  fst (download_file "a.txt" "out" st_hello_dir)
    = Raise (IsADirectoryError "[Errno 21] Is a directory: 'out'")
  /\ ~ download_file_claim isfile st_hello_dir "a.txt" "out"
  /\ ~ download_file_claim path_exists st_hello_dir "a.txt" "out".
Proof.
  split; [vm_compute; reflexivity|]. split.
  - intros Hclaim. vm_compute in Hclaim. destruct Hclaim as [Hok _]. discriminate.
  - intros Hclaim. vm_compute in Hclaim. discriminate.
Qed.

(** C10 as stated: ["out"] is a regular file and nothing is stored at
    ["a.txt"]. The first guard raises [ResourceExistsError]; the
    [ValueError] of the local guard is not raised although the destination
    is a regular file. *)
Lemma local_guard_claim_fails_without_remote :
  ~ local_guard_claim st_empty_file "a.txt" "out".
Proof.
  intros [_ Hguard]. destruct Hguard as [msg Hmsg]; [reflexivity|].
  vm_compute in Hmsg. discriminate.
Qed.

(** Nothing is stored at ["a.txt"]: the delete call raises
    [ResourceNotFoundError] and [delete_obj] returns nothing. *)
Lemma delete_absent_claim_fails :
  ~ delete_absent_claim st_empty "a.txt".
Proof.
  intros Hclaim. specialize (Hclaim eq_refl). vm_compute in Hclaim. discriminate.
Qed.

(** With another writer at work the post-check of [delete_obj] finds the
    blob again and the method returns [False]. *)
Example delete_obj_raced : fst (delete_obj "a.txt" st_raced) = Ok false.
Proof. reflexivity. Qed.

(** Below a regular file [open] raises [NotADirectoryError], for reading
    as for writing. *)
Example open_below_a_file :
  let files : gmap string entry :=
    {[ "out" := RegularFile world; "out/x" := Obstructed NotADirectory ]} in
  fst (upload_file "out/x" "a.txt" true (set_fs files st_hello))
    = Raise (NotADirectoryError "[Errno 20] Not a directory: 'out/x'")
  /\ fst (download_file "a.txt" "out/x" (set_fs files st_hello))
     = Raise (NotADirectoryError "[Errno 20] Not a directory: 'out/x'").
Proof. split; reflexivity. Qed.

(** Onto a device the download succeeds and creates no file. *)
Example download_file_onto_device :
  fst (download_file "a.txt" "out" st_hello_null) = Ok true
  /\ fs (snd (download_file "a.txt" "out" st_hello_null)) !! "out" = Some NullDevice.
Proof. split; reflexivity. Qed.

(** With [delete_snapshots] left out, the storage layer refuses to delete a
    blob that has snapshots. *)
Example delete_blob_needs_include :
  fst (delete_blob (blob_of handler0 "a.txt") None (remote st_hello))
  = Raise (ResourceExistsError
             "This operation is not permitted because the blob has snapshots.").
Proof. reflexivity. Qed.

(** ** The properties at sample states *)

Lemma download_file_missing_remote_names_destination_witness :
  fst (blob_exists "a.txt" st_empty) = Ok false
  /\ fst (download_file "a.txt" "out" st_empty) =
     Raise (ResourceExistsError "The specified blob `out` does not exists.").
Proof.
  split; [reflexivity|].
  apply (download_file_missing_remote_names_destination st_empty "a.txt" "out").
  reflexivity.
Defined.

Lemma upload_file_delegates_to_save_obj_witness :
  fs st_empty_file !! "out" = Some (RegularFile world)
  /\ upload_file "out" "c.txt" false st_empty_file
     = upload_file_spec "out" "c.txt" false st_empty_file.
Proof.
  split; [reflexivity|].
  apply (upload_file_delegates_to_save_obj st_empty_file "out" "c.txt" false world).
  reflexivity.
Defined.

Lemma read_obj_content_or_not_found_witness :
  fst (read_obj "a.txt" st_hello) = Ok hello
  /\ fst (read_obj "a.txt" st_empty)
     = Raise (ResourceNotFoundError "The specified blob does not exist.").
Proof.
  split.
  - destruct (read_obj_content_or_not_found st_hello "a.txt") as [Hpresent _].
    destruct (Hpresent eq_refl) as [bl [Hbl Hread]].
    rewrite Hread. simpl. f_equal.
    vm_compute in Hbl. now injection Hbl as <-.
  - destruct (read_obj_content_or_not_found st_empty "a.txt") as [_ [Habsent _]].
    now rewrite (Habsent eq_refl).
Defined.

Lemma delete_obj_reports_absence_witness :
  (exists s', delete_obj "a.txt" st_hello = (Ok true, s')
              /\ fst (blob_exists "a.txt" s') = Ok false)
  /\ (false = true <->
      fst (blob_exists "a.txt" (snd (delete_obj "a.txt" st_raced))) = Ok false)
  /\ fst (delete_obj "a.txt" st_empty) <> Ok true.
Proof.
  destruct delete_obj_reports_absence as [Hany [Hpresent Habsent]].
  split; [|split].
  - destruct (Hpresent st_hello "a.txt" eq_refl) as [s' [Hrun [_ [_ Hgone]]]].
    exists s'. split; assumption.
  - apply (Hany contended contended_sdk st_raced _ "a.txt" false).
    apply injective_projections; [vm_compute; reflexivity|].
    cbn [snd]. reflexivity.
  - apply (Habsent st_empty "a.txt" eq_refl).
Defined.

Lemma delete_obj_absent_raises_not_found_witness :
  fst (blob_exists "a.txt" st_empty) = Ok false
  /\ exists msg,
       fst (delete_obj "a.txt" st_empty) = Raise (ResourceNotFoundError msg).
Proof.
  split; [reflexivity|].
  destruct (delete_obj_absent_raises_not_found st_empty "a.txt" eq_refl)
    as [msg Hrun].
  exists msg. now rewrite Hrun.
Defined.

Lemma save_obj_overwrite_guard_witness :
  (exists s',
     save_obj (Bytes world) "a.txt" false st_hello
     = (Raise (ResourceExistsError "The specified blob `a.txt` already exists"), s')
     /\ remote s' = remote st_hello)
  /\ (exists s',
        save_obj (Bytes world) "a.txt" true st_hello
        = (Ok (blob_of handler0 "a.txt"), s')
        /\ fst (read_obj "a.txt" s') = Ok world)
  /\ (exists s',
        save_obj (Bytes hello) "a.txt" false st_empty
        = (Ok (blob_of handler0 "a.txt"), s')
        /\ fst (read_obj "a.txt" s') = Ok hello)
  /\ save_obj (FileObject {| file_name := "out"; file_mode := rb |}) "c.txt" false
       st_hello_file
     = save_obj (Bytes world) "c.txt" false st_hello_file.
Proof.
  split; [|split; [|split]].
  - destruct (save_obj_overwrite_guard st_hello world "a.txt" false)
      as [Hrefuse _].
    destruct (Hrefuse eq_refl eq_refl) as [s' [Hrun [_ [Hsame _]]]].
    exists s'. split; assumption.
  - destruct (save_obj_overwrite_guard st_hello world "a.txt" true)
      as [_ [Hwrite _]].
    destruct (Hwrite (or_introl eq_refl)) as [s' [Hrun [_ [_ [_ [_ Hread]]]]]].
    exists s'. split; assumption.
  - destruct (save_obj_overwrite_guard st_empty hello "a.txt" false)
      as [_ [Hwrite _]].
    destruct (Hwrite (or_intror eq_refl)) as [s' [Hrun [_ [_ [_ [_ Hread]]]]]].
    exists s'. split; assumption.
  - destruct (save_obj_overwrite_guard st_hello_file world "c.txt" false)
      as [_ [_ Hfile]].
    apply Hfile. reflexivity.
Defined.

Lemma save_obj_twice_witness :
  (exists msg s2,
     save_obj (Bytes world) "a.txt" false
       (snd (save_obj (Bytes hello) "a.txt" false st_empty))
     = (Raise (ResourceExistsError msg), s2)
     /\ fst (read_obj "a.txt" s2) = Ok hello)
  /\ (exists h2 s2,
        save_obj (Bytes world) "a.txt" true
          (snd (save_obj (Bytes hello) "a.txt" false st_empty))
        = (Ok h2, s2)
        /\ fst (read_obj "a.txt" s2) = Ok world).
Proof.
  destruct (save_obj_twice st_empty
              (snd (save_obj (Bytes hello) "a.txt" false st_empty))
              hello world "a.txt" (blob_of handler0 "a.txt"))
    as [[msg [s2 [Hrun [_ Hread]]]] Hover].
  - apply injective_projections; [vm_compute; reflexivity|].
    cbn [snd]. reflexivity.
  - split; [|exact Hover]. exists msg, s2. split; assumption.
Defined.

Lemma download_file_cases_witness :
  fst (download_file "a.txt" "out" st_empty)
    = Raise (ResourceExistsError "The specified blob `out` does not exists.")
  /\ fst (download_file "a.txt" "out" st_hello_file)
     = Raise (ValueError "The specified file `out` already exists.")
  /\ fst (download_file "a.txt" "out" st_hello) = Ok true
  /\ fst (download_file "a.txt" "nodir/out" st_hello_nodir)
     = Raise (FileNotFoundError
                "[Errno 2] No such file or directory: 'nodir/out'").
Proof.
  split; [|split; [|split]].
  - destruct (download_file_cases st_empty "a.txt" "out") as [Hmissing _].
    destruct (Hmissing eq_refl) as [s' [Hrun _]]. now rewrite Hrun.
  - destruct (download_file_cases st_hello_file "a.txt" "out") as [_ [Hlocal _]].
    destruct (Hlocal eq_refl eq_refl) as [s' [Hrun _]]. now rewrite Hrun.
  - destruct (download_file_cases st_hello "a.txt" "out") as [_ [_ [Hnew _]]].
    destruct (Hnew eq_refl eq_refl) as [bl [s' [_ [Hrun _]]]]. now rewrite Hrun.
  - destruct (download_file_cases st_hello_nodir "a.txt" "nodir/out")
      as [_ [_ [_ [_ Hblocked]]]].
    destruct (Hblocked MissingDirectory eq_refl eq_refl) as [s' [Hrun _]].
    now rewrite Hrun.
Defined.

Lemma download_file_local_guard_witness :
  fst (blob_exists "a.txt" st_hello_dir) = Ok true
  /\ fst (download_file "a.txt" "out" st_hello_dir)
     = Raise (IsADirectoryError "[Errno 21] Is a directory: 'out'")
  /\ ((exists msg,
         fst (download_file "a.txt" "out" st_hello_file) = Raise (ValueError msg))
      <-> isfile (fs st_hello_file) "out" = true).
Proof.
  split; [reflexivity|]. split.
  - destruct (download_file_local_guard st_hello_dir "a.txt" "out" eq_refl)
      as [_ [_ Hdir]].
    now rewrite (Hdir eq_refl).
  - apply (download_file_local_guard st_hello_file "a.txt" "out" eq_refl).
Defined.

(** * Further properties of the methods *)

(** ** What a method leaves alone *)

Section Keeps.
Context {store : Type} `{!BlobSDK store} {X : Type} (proj : state store -> X).

Lemma keeps_ret {A} (a : A) : keeps proj (ret a).
Proof. intros s. reflexivity. Qed.

Lemma keeps_raise {A} (e : exn) : keeps (A:=A) proj (raise e).
Proof. intros s. reflexivity. Qed.

Lemma keeps_bind {A B} (m : M store A) (k : A -> M store B) :
  keeps proj m -> (forall a, keeps proj (k a)) -> keeps proj (bind m k).
Proof.
  intros Hm Hk s. unfold bind. specialize (Hm s).
  destruct (m s) as [[a|e] s1]; simpl in *; [|exact Hm].
  rewrite Hk. exact Hm.
Qed.

Lemma keeps_finally {A} (body : M store A) (cleanup : M store unit) :
  keeps proj body -> keeps proj cleanup -> keeps proj (finally body cleanup).
Proof.
  intros Hb Hc s. unfold finally. specialize (Hb s).
  destruct (body s) as [r s1]. specialize (Hc s1).
  destruct (cleanup s1) as [[u|e] s2]; simpl in *; congruence.
Qed.

Lemma keeps_if {A} (b : bool) (m1 m2 : M store A) :
  keeps proj m1 -> keeps proj m2 -> keeps proj (if b then m1 else m2).
Proof. destruct b; auto. Qed.

End Keeps.

Section KeepsPrimitives.
Context {store : Type} `{!BlobSDK store}.

Lemma keeps_remote_get_blob_client p :
  keeps remote (get_blob_client (store:=store) p).
Proof. intros s. reflexivity. Qed.

Lemma keeps_remote_blob_exists p : keeps remote (blob_exists (store:=store) p).
Proof. intros s. reflexivity. Qed.

Lemma keeps_remote_call_download b :
  keeps remote (call_download_blob_readall (store:=store) b).
Proof. intros s. reflexivity. Qed.

Lemma keeps_remote_isfile path : keeps remote (os_path_isfile (store:=store) path).
Proof. intros s. reflexivity. Qed.

Lemma keeps_remote_open path mode : keeps remote (open (store:=store) path mode).
Proof.
  intros s. unfold open. destruct (fs s !! path) as [[| | |why]|], mode; reflexivity.
Qed.

Lemma keeps_remote_write f data : keeps remote (file_write (store:=store) f data).
Proof.
  intros s. unfold file_write.
  destruct (fs s !! file_name f) as [[| | |why]|]; reflexivity.
Qed.

Lemma keeps_remote_close f : keeps remote (file_close (store:=store) f).
Proof. intros s. reflexivity. Qed.

Lemma keeps_fs_get_container_client :
  keeps fs (get_container_client (store:=store)).
Proof. intros s. reflexivity. Qed.

Lemma keeps_fs_get_blob_client p : keeps fs (get_blob_client (store:=store) p).
Proof. intros s. reflexivity. Qed.

Lemma keeps_fs_blob_exists p : keeps fs (blob_exists (store:=store) p).
Proof. intros s. reflexivity. Qed.

Lemma keeps_fs_call_upload c name data overwrite :
  keeps fs (call_upload_blob (store:=store) c name data overwrite).
Proof.
  intros s. unfold call_upload_blob.
  destruct (upload_blob _ _ _ _ _) as [r st]. reflexivity.
Qed.

Lemma keeps_fs_call_delete b ds : keeps fs (call_delete_blob (store:=store) b ds).
Proof.
  intros s. unfold call_delete_blob.
  destruct (delete_blob _ _ _) as [r st]. reflexivity.
Qed.

Lemma keeps_fs_open_rb path : keeps fs (open (store:=store) path rb).
Proof.
  intros s. unfold open. destruct (fs s !! path) as [[| | |why]|]; reflexivity.
Qed.

Lemma keeps_fs_close f : keeps fs (file_close (store:=store) f).
Proof. intros s. reflexivity. Qed.

End KeepsPrimitives.

Ltac keeps :=
  repeat match goal with
    | |- keeps _ (bind _ _) => apply keeps_bind; [|intros ?]
    | |- keeps _ (finally _ _) => apply keeps_finally
    | |- keeps _ (if _ then _ else _) => apply keeps_if
    | |- keeps _ (ret _) => apply keeps_ret
    | |- keeps _ (raise _) => apply keeps_raise
    | |- keeps _ _ => assumption
    end.

Section KeepsMethods.
Context {store : Type} `{!BlobSDK store}.

Lemma keeps_remote_download_file src dst :
  keeps remote (download_file (store:=store) src dst).
Proof.
  unfold download_file, with_open.
  pose proof (keeps_remote_blob_exists (store:=store) src).
  pose proof (keeps_remote_isfile (store:=store) dst).
  pose proof (keeps_remote_open (store:=store) dst wb).
  pose proof (keeps_remote_get_blob_client (store:=store) src).
  keeps.
  all: first [ apply keeps_remote_call_download
             | apply keeps_remote_write
             | apply keeps_remote_close ].
Qed.

Lemma keeps_fs_save_obj data p overwrite :
  keeps fs (save_obj (store:=store) data p overwrite).
Proof.
  unfold save_obj.
  pose proof (keeps_fs_blob_exists (store:=store) p).
  pose proof (keeps_fs_get_container_client (store:=store)).
  keeps. all: apply keeps_fs_call_upload.
Qed.

Lemma keeps_fs_upload_file src dst overwrite :
  keeps fs (upload_file (store:=store) src dst overwrite).
Proof.
  unfold upload_file, with_open.
  pose proof (keeps_fs_open_rb (store:=store) src).
  keeps.
  all: first [ apply keeps_fs_save_obj | apply keeps_fs_close ].
Qed.

Lemma keeps_fs_delete_obj p : keeps fs (delete_obj (store:=store) p).
Proof.
  unfold delete_obj.
  pose proof (keeps_fs_get_blob_client (store:=store) p).
  pose proof (keeps_fs_blob_exists (store:=store) p).
  keeps. all: apply keeps_fs_call_delete.
Qed.

End KeepsMethods.

(** X1. The three reading methods never modify the remote store, whatever
    the storage layer is and whether they return or raise: [blob_exists],
    [read_obj] and [download_file] leave [remote] as it was. *)
Theorem reading_methods_keep_store {store : Type} `{!BlobSDK store}
    (s : state store) (file_path from_file_path to_file_path : string) :
  remote (snd (blob_exists file_path s)) = remote s
  /\ remote (snd (read_obj file_path s)) = remote s
  /\ remote (snd (download_file from_file_path to_file_path s)) = remote s.
Proof.
  split; [reflexivity|]. split; [reflexivity|].
  apply keeps_remote_download_file.
Qed.

(** X2. Only [download_file] writes to the local filesystem: [blob_exists],
    [read_obj], [save_obj], [upload_file] and [delete_obj] leave every local
    entry as it was, whatever the storage layer is and whether they return
    or raise. In particular [upload_file] never alters the file it
    uploads. *)
Theorem storage_methods_keep_filesystem {store : Type} `{!BlobSDK store}
    (s : state store) (file_obj : upload_data)
    (file_path from_file_path to_file_path : string) (overwrite : bool) :
  fs (snd (blob_exists file_path s)) = fs s
  /\ fs (snd (read_obj file_path s)) = fs s
  /\ fs (snd (save_obj file_obj file_path overwrite s)) = fs s
  /\ fs (snd (upload_file from_file_path to_file_path overwrite s)) = fs s
  /\ fs (snd (delete_obj file_path s)) = fs s.
Proof.
  split; [reflexivity|]. split; [reflexivity|].
  split; [apply keeps_fs_save_obj|].
  split; [apply keeps_fs_upload_file|apply keeps_fs_delete_obj].
Qed.

(** ** Local files: opening, closing, creating *)

Section LocalFiles.
Context {store : Type} `{!BlobSDK store}.
Implicit Types (s : state store).

(** When [open] returns a file object, the [with] block ends with the
    [close] of that file, whatever its body did. *)
Lemma with_open_closes {A} path mode (body : file -> M store A) s :
  can_open (fs s) path mode = true ->
  exists l, trace (snd (with_open path mode body s)) = l ++ [CallClose path].
Proof.
  unfold can_open, with_open, bind, open, finally. intros Hopen.
  destruct (fs s !! path) as [[d| | |why]|], mode; try discriminate;
    match goal with
    | |- context [body ?f ?s1] => destruct (body f s1) as [r s']
    end; simpl; eexists; reflexivity.
Qed.

(** Past its two guards [download_file] is the [with] block. *)
Lemma download_file_past_guards s src dst :
  exists_ (blob_of (self s) src) (remote s) = true ->
  isfile (fs s) dst = false ->
  download_file src dst s =
  match with_open dst wb (fun f =>
          let* b := get_blob_client src in
          let* data := call_download_blob_readall b in
          file_write f data)
        (log (CallIsFile dst) (log (CallExists (blob_of (self s) src)) s)) with
  | (Ok _, s') => (Ok true, s')
  | (Raise e, s') => (Raise e, s')
  end.
Proof.
  intros Hex Hfile. unfold download_file at 1. unfold bind at 1.
  rewrite blob_exists_run, Hex. cbn [negb]. unfold bind at 1.
  unfold os_path_isfile at 1. cbn [fs log]. rewrite Hfile. cbn iota.
  unfold bind at 1.
  match goal with
  | |- context [with_open dst wb ?body ?s1] =>
      destruct (with_open dst wb body s1) as [[n|e] s']
  end; reflexivity.
Qed.

End LocalFiles.

(** X3. The source of an upload is opened before anything is asked of the
    store. When nothing exists at the local path [upload_file] raises
    [FileNotFoundError], when the path is a directory it raises
    [IsADirectoryError]; in both cases [open] is the only call issued, so
    the error comes even if the blob exists and [overwrite] is off, and
    nothing is changed. The storage layer is arbitrary. *)
Theorem upload_file_unreadable_source {store : Type} `{!BlobSDK store}
    (s : state store) (from_file_path to_file_path : string) (overwrite : bool) :
  (fs s !! from_file_path = None ->
   upload_file from_file_path to_file_path overwrite s =
   (Raise (FileNotFoundError
             ("[Errno 2] No such file or directory: '" ++ from_file_path ++ "'")),
    log (CallOpen from_file_path rb) s))
  /\ (fs s !! from_file_path = Some Directory ->
      upload_file from_file_path to_file_path overwrite s =
      (Raise (IsADirectoryError
                ("[Errno 21] Is a directory: '" ++ from_file_path ++ "'")),
       log (CallOpen from_file_path rb) s)).
Proof.
  split; intros Hsrc; unfold upload_file, with_open, bind, open;
    rewrite Hsrc; reflexivity.
Qed.

(** X4. A file that was opened is closed on every exit. Whenever [open]
    succeeds on the source, the last call [upload_file] issues is the
    [close] of that file, whether [save_obj] returned a handle or raised.
    Whenever [download_file] gets past its two guards and [open] succeeds on
    the destination, its last call is the [close] of the destination,
    whether the download call returned or raised. The storage layer is
    arbitrary. *)
Theorem opened_files_are_closed {store : Type} `{!BlobSDK store}
    (s : state store) (from_file_path to_file_path : string) (overwrite : bool) :
  (can_open (fs s) from_file_path rb = true ->
   last (trace (snd (upload_file from_file_path to_file_path overwrite s)))
   = Some (CallClose from_file_path))
  /\ (fst (blob_exists from_file_path s) = Ok true ->
      isfile (fs s) to_file_path = false ->
      can_open (fs s) to_file_path wb = true ->
      last (trace (snd (download_file from_file_path to_file_path s)))
      = Some (CallClose to_file_path)).
Proof.
  split.
  - intros Hopen. unfold upload_file.
    destruct (with_open_closes from_file_path rb
                (fun f => save_obj (FileObject f) to_file_path overwrite) s Hopen)
      as [l ->].
    apply last_snoc.
  - intros Hex%blob_exists_fst Hfile Hopen.
    rewrite (download_file_past_guards _ _ _ Hex Hfile).
    match goal with
    | |- context [with_open to_file_path wb ?body ?s1] =>
        destruct (with_open_closes to_file_path wb body s1 Hopen) as [l Hl];
        destruct (with_open to_file_path wb body s1) as [[n|e] s']
    end; simpl in *; rewrite Hl; apply last_snoc.
Qed.

(** X5. [download_file] creates the destination before it downloads. When
    the remote blob exists and the local path is free (nothing exists there
    and a file can be created there), the file exists afterwards in every
    case: it holds what [read_obj] returns and the
    result is [True], or, if the download call raises, it is left empty and
    that exception reaches the caller. The storage layer is arbitrary. *)
Theorem download_file_creates_before_downloading {store : Type} `{!BlobSDK store}
    (s : state store) (from_file_path to_file_path : string) :
  fst (blob_exists from_file_path s) = Ok true ->
  fs s !! to_file_path = None ->
  fst (download_file from_file_path to_file_path s)
    = match fst (read_obj from_file_path s) with
      | Ok _ => Ok true
      | Raise e => Raise e
      end
  /\ fs (snd (download_file from_file_path to_file_path s))
     = <[to_file_path := downloaded (fst (read_obj from_file_path s))]> (fs s).
Proof.
  intros Hex%blob_exists_fst Hfree.
  assert (Hfile : isfile (fs s) to_file_path = false).
  { unfold isfile. now rewrite Hfree. }
  rewrite (download_file_past_guards _ _ _ Hex Hfile), read_obj_run.
  unfold with_open, bind, open, finally. cbn [fs log]. rewrite Hfree.
  rewrite get_blob_client_run. unfold call_download_blob_readall.
  cbn [self remote log set_fs fst].
  destruct (download_blob_readall _ _) as [d|e]; [|split; reflexivity].
  unfold file_write. cbn [fs log set_fs file_name]. rewrite lookup_insert_eq.
  simpl. split; [reflexivity|]. apply insert_insert_eq.
Qed.

(** ** Sequences of calls *)

(** X7. [download_file] never overwrites what it wrote. After a download
    into a free local path has returned [True], a second download of the
    same blob into that path raises [ValueError], and a download of any
    remote path into it raises too; in each case the file keeps the content
    of the first download. *)
Theorem download_file_twice (s : state azure_store)
    (from_file_path to_file_path : string) :
  fst (blob_exists from_file_path s) = Ok true ->
  fs s !! to_file_path = None ->
  exists bl s1,
    remote s !! blob_key (blob_of (self s) from_file_path) = Some bl
    /\ download_file from_file_path to_file_path s = (Ok true, s1)
    /\ fs s1 !! to_file_path = Some (RegularFile (content bl))
    /\ fst (download_file from_file_path to_file_path s1)
       = Raise (ValueError
                  ("The specified file `" ++ to_file_path ++ "` already exists."))
    /\ (forall any_path,
          (exists e, fst (download_file any_path to_file_path s1) = Raise e)
          /\ fs (snd (download_file any_path to_file_path s1)) = fs s1).
Proof.
  intros [bl Hbl]%blob_exists_true Hfree.
  assert (Hfile : isfile (fs s) to_file_path = false).
  { unfold isfile. now rewrite Hfree. }
  rewrite (download_file_opens _ _ _ _ Hbl Hfile), Hfree.
  exists bl. eexists. split; [exact Hbl|]. split; [reflexivity|].
  match goal with |- fs ?st !! _ = _ /\ _ => set (s1 := st) end.
  assert (Hwritten : fs s1 !! to_file_path = Some (RegularFile (content bl))).
  { subst s1. simpl. apply lookup_insert_eq. }
  assert (Hfile1 : isfile (fs s1) to_file_path = true).
  { unfold isfile. now rewrite Hwritten. }
  assert (Hex1 : exists_ (blob_of (self s1) from_file_path) (remote s1) = true).
  { subst s1. simpl. unfold azure_exists.
    change (blob_key (sdk_get_blob_client _ from_file_path))
      with (blob_key (blob_of (self s) from_file_path)).
    now rewrite Hbl. }
  split; [exact Hwritten|]. split.
  - now rewrite (download_file_local_present s1 _ _ Hex1 Hfile1).
  - intros any_path.
    destruct (exists_ (blob_of (self s1) any_path) (remote s1)) eqn:Hany.
    + rewrite (download_file_local_present s1 _ _ Hany Hfile1). eauto.
    + rewrite (download_file_remote_missing s1 _ _ Hany). eauto.
Qed.

(** X8. Upload, then download, gives the file back. When [upload_file]
    sends a regular local file to a path it may write ([overwrite=True], or
    no blob there), it returns the client of that blob; a [download_file]
    from that path into a free local path (nothing exists there and a file
    can be created there) then returns [True], the new file
    holds the bytes of the uploaded one, the uploaded file is untouched and
    [read_obj] returns the same bytes. *)
Theorem upload_then_download (s : state azure_store)
    (local_path file_path copy_path : string) (overwrite : bool) (data : bytes) :
  fs s !! local_path = Some (RegularFile data) ->
  overwrite = true \/ fst (blob_exists file_path s) = Ok false ->
  fs s !! copy_path = None ->
  exists s1 s2,
    upload_file local_path file_path overwrite s = (Ok (blob_of (self s) file_path), s1)
    /\ download_file file_path copy_path s1 = (Ok true, s2)
    /\ fs s2 !! copy_path = Some (RegularFile data)
    /\ fs s2 !! local_path = Some (RegularFile data)
    /\ fst (read_obj file_path s2) = Ok data.
Proof.
  intros Hlocal Hcase Hfree.
  assert (Hne : copy_path <> local_path) by congruence.
  rewrite blob_exists_fst in Hcase.
  rewrite (upload_file_readable _ _ _ _ _ Hlocal).
  rewrite (save_obj_written (log (CallOpen local_path rb) s) (Bytes data)
             file_path overwrite Hcase).
  cbn [read_upload_data self remote fs log].
  set (b := blob_of (self s) file_path).
  set (bl := written (remote s) b data).
  match goal with
  | |- exists s1 s2, (_, ?st) = _ /\ _ => set (s1 := st); exists s1
  end.
  assert (Hbl : remote s1 !! blob_key (blob_of (self s1) file_path) = Some bl).
  { subst s1. destruct overwrite; simpl; apply lookup_insert_eq. }
  assert (Hfs : fs s1 = fs s) by (subst s1; destruct overwrite; reflexivity).
  assert (Hfile : isfile (fs s1) copy_path = false).
  { unfold isfile. now rewrite Hfs, Hfree. }
  rewrite (download_file_opens s1 _ _ _ Hbl Hfile). rewrite Hfs, Hfree.
  eexists. split; [reflexivity|]. split; [reflexivity|].
  cbn [fs log set_fs]. split; [apply lookup_insert_eq|]. split.
  - rewrite lookup_insert_ne by exact Hne. exact Hlocal.
  - rewrite (read_obj_present _ file_path bl); [reflexivity|].
    cbn [self remote log set_fs]. exact Hbl.
Qed.

(** X9. Save, then delete. After a [save_obj] that was allowed to write,
    [delete_obj] at the same path returns [True]; then [blob_exists]
    returns [False], [read_obj] raises [ResourceNotFoundError], and a second
    [delete_obj] raises [ResourceNotFoundError] as well: deleting is not
    idempotent. If the path was free before the save, the store is back to
    what it was. *)
Theorem save_then_delete (s : state azure_store) (file_obj : upload_data)
    (file_path : string) (overwrite : bool) :
  overwrite = true \/ fst (blob_exists file_path s) = Ok false ->
  exists s1 s2,
    save_obj file_obj file_path overwrite s = (Ok (blob_of (self s) file_path), s1)
    /\ delete_obj file_path s1 = (Ok true, s2)
    /\ fst (blob_exists file_path s2) = Ok false
    /\ fst (read_obj file_path s2)
       = Raise (ResourceNotFoundError "The specified blob does not exist.")
    /\ fst (delete_obj file_path s2)
       = Raise (ResourceNotFoundError "The specified blob does not exist.")
    /\ (fst (blob_exists file_path s) = Ok false -> remote s2 = remote s).
Proof.
  intros Hcase. rewrite blob_exists_fst in Hcase.
  rewrite (save_obj_written s file_obj file_path overwrite Hcase).
  set (b := blob_of (self s) file_path).
  set (bl := written (remote s) b (read_upload_data file_obj (fs s))).
  match goal with
  | |- exists s1 s2, (_, ?st) = _ /\ _ => set (s1 := st); exists s1
  end.
  assert (Hself : blob_of (self s1) file_path = b).
  { subst s1. destruct overwrite; reflexivity. }
  assert (Hremote : remote s1 = <[blob_key b := bl]> (remote s)).
  { subst s1. reflexivity. }
  assert (Hdel : delete_blob b (Some include) (remote s1)
                 = (Ok tt, delete (blob_key b) (remote s))).
  { change (delete_blob b (Some include) (remote s1))
      with (azure_delete_blob b (Some include) (remote s1)).
    unfold azure_delete_blob.
    rewrite Hremote, lookup_insert_eq. now rewrite delete_insert_eq. }
  rewrite (delete_obj_run file_path s1), Hself, Hdel.
  assert (Hgone : exists_ b (delete (blob_key b) (remote s)) = false).
  { simpl. unfold azure_exists. now rewrite lookup_delete_eq. }
  rewrite Hgone. cbn [negb].
  eexists. split; [reflexivity|]. split; [reflexivity|].
  match goal with |- fst (blob_exists _ ?st) = _ /\ _ => set (s2 := st) end.
  assert (Hself2 : blob_of (self s2) file_path = b).
  { subst s2 s1. destruct overwrite; reflexivity. }
  assert (Hnone : remote s2 !! blob_key (blob_of (self s2) file_path) = None).
  { rewrite Hself2. subst s2. simpl. apply lookup_delete_eq. }
  split; [now apply blob_exists_false|].
  split; [now rewrite (read_obj_absent s2 file_path Hnone)|].
  split.
  - assert (Hrefused :
        delete_blob (blob_of (self s2) file_path) (Some include) (remote s2)
        = (Raise (ResourceNotFoundError "The specified blob does not exist."),
           remote s2)).
    { change (delete_blob (blob_of (self s2) file_path) (Some include) (remote s2))
        with (azure_delete_blob (blob_of (self s2) file_path) (Some include)
                (remote s2)).
      unfold azure_delete_blob. now rewrite Hnone. }
    now rewrite (delete_obj_run file_path s2), Hrefused.
  - intros Hfree%blob_exists_false. subst s2. simpl.
    now apply delete_id.
Qed.

(** ** Deleting against another writer *)

(** X11. The value [delete_obj] returns is the answer of its post-check,
    not of the delete call. On a store shared with another writer, deleting
    an existing blob returns [False] exactly when the upload the other
    writer performs next puts a blob back at that path, although the delete
    call itself succeeded; with no such upload pending it returns [True]. *)
Theorem delete_obj_against_writer (s : state contended) (file_path : string)
    (bl : blob) :
  blobs (remote s) !! blob_key (blob_of (self s) file_path) = Some bl ->
  fst (delete_obj file_path s)
  = Ok (match pending (remote s) with
        | (k, _) :: _ =>
            if decide (k = blob_key (blob_of (self s) file_path)) then false else true
        | [] => true
        end).
Proof.
  intros Hbl. rewrite delete_obj_run.
  set (b := blob_of (self s) file_path) in *.
  change (delete_blob b (Some include) (remote s))
    with (match azure_delete_blob b (Some include) (blobs (remote s)) with
          | (r, st) => (r, writer_step {| blobs := st; pending := pending (remote s) |})
          end).
  unfold azure_delete_blob. rewrite Hbl. unfold writer_step. cbn [pending blobs].
  destruct (pending (remote s)) as [|[k d] rest]; cbn [fst].
  - change (exists_ b ?c) with (azure_exists b (blobs c)). cbn [blobs].
    unfold azure_exists. now rewrite lookup_delete_eq.
  - change (exists_ b ?c) with (azure_exists b (blobs c)). cbn [blobs].
    unfold azure_exists. destruct (decide (k = blob_key b)) as [->|Hne].
    + now rewrite lookup_insert_eq.
    + rewrite lookup_insert_ne by exact Hne. now rewrite lookup_delete_eq.
Qed.

(** ** The further properties at sample states *)

Lemma upload_file_unreadable_source_witness :
  fst (upload_file "out" "a.txt" false st_empty)
    = Raise (FileNotFoundError "[Errno 2] No such file or directory: 'out'")
  /\ fst (upload_file "out" "a.txt" false st_hello_dir)
     = Raise (IsADirectoryError "[Errno 21] Is a directory: 'out'").
Proof.
  split.
  - destruct (upload_file_unreadable_source st_empty "out" "a.txt" false)
      as [Hmissing _].
    now rewrite (Hmissing eq_refl).
  - destruct (upload_file_unreadable_source st_hello_dir "out" "a.txt" false)
      as [_ Hdir].
    now rewrite (Hdir eq_refl).
Defined.

Lemma opened_files_are_closed_witness :
  last (trace (snd (upload_file "out" "a.txt" false st_hello_file)))
    = Some (CallClose "out")
  /\ last (trace (snd (download_file "a.txt" "out" st_hello)))
     = Some (CallClose "out").
Proof.
  split.
  - apply (opened_files_are_closed st_hello_file "out" "a.txt" false). reflexivity.
  - apply (opened_files_are_closed st_hello "a.txt" "out" false); reflexivity.
Defined.

Lemma download_file_creates_before_downloading_witness :
  fst (download_file "a.txt" "out" st_hello) = Ok true
  /\ fs (snd (download_file "a.txt" "out" st_hello)) !! "out"
     = Some (RegularFile hello).
Proof.
  pose proof (download_file_creates_before_downloading st_hello "a.txt" "out")
    as Hcreated.
  destruct (Hcreated eq_refl eq_refl) as [Hres Hfs].
  split.
  - rewrite Hres. reflexivity.
  - rewrite Hfs, lookup_insert_eq. reflexivity.
Defined.

Lemma download_file_twice_witness :
  exists s1,
    download_file "a.txt" "out" st_hello = (Ok true, s1)
    /\ fst (download_file "a.txt" "out" s1)
       = Raise (ValueError "The specified file `out` already exists.").
Proof.
  destruct (download_file_twice st_hello "a.txt" "out" eq_refl eq_refl)
    as [bl [s1 [_ [Hfirst [_ [Hsecond _]]]]]].
  exists s1. split; assumption.
Defined.

Lemma upload_then_download_witness :
  exists s1 s2,
    upload_file "out" "c.txt" false st_hello_file
      = (Ok (blob_of handler0 "c.txt"), s1)
    /\ download_file "c.txt" "copy" s1 = (Ok true, s2)
    /\ fs s2 !! "copy" = Some (RegularFile world).
Proof.
  destruct (upload_then_download st_hello_file "out" "c.txt" "copy" false world
              eq_refl (or_intror eq_refl) eq_refl)
    as [s1 [s2 [Hup [Hdown [Hcopy _]]]]].
  exists s1, s2. repeat split; assumption.
Defined.

Lemma save_then_delete_witness :
  exists s1 s2,
    save_obj (Bytes hello) "a.txt" false st_empty = (Ok (blob_of handler0 "a.txt"), s1)
    /\ delete_obj "a.txt" s1 = (Ok true, s2)
    /\ fst (delete_obj "a.txt" s2)
       = Raise (ResourceNotFoundError "The specified blob does not exist.")
    /\ remote s2 = remote st_empty.
Proof.
  destruct (save_then_delete st_empty (Bytes hello) "a.txt" false
              (or_intror eq_refl))
    as [s1 [s2 [Hsave [Hdel [_ [_ [Hagain Hback]]]]]]].
  exists s1, s2. repeat split; try assumption. now apply Hback.
Defined.

Lemma delete_obj_against_writer_witness :
  fst (delete_obj "a.txt" st_raced) = Ok false.
Proof.
  rewrite (delete_obj_against_writer st_raced "a.txt"
             {| content := hello; snapshots := [] |} eq_refl).
  reflexivity.
Defined.
